(** * clairvoyance/graphql.py: schema model, introspection codec, root paths

    A shallow embedding of the classes [TypeRef], [InputValue], [Field],
    [Type] and [Schema] of [clairvoyance/graphql.py] and of the function
    [field_or_arg_type_from_json], followed by the properties of the
    schema model that are checked against it.

    Conventions of the embedding.
    - Python values that travel through the JSON wire format are terms of
      [value].  Floating point numbers are left out.
    - A Python dict is an association list in insertion order with unique
      keys; [dict_set] keeps both properties.
    - A call that may raise returns a [result]; a method that also mutates
      its receiver returns the receiver's new state next to the result, so
      that a mutation made before an exception is not lost.
    - A [while] loop whose exit the source does not guarantee is run with
      fuel: [None] means that the fuel ran out before the loop was left. *)

From Stdlib Require Import String Ascii List ZArith Bool Lia.
Import ListNotations.
Open Scope string_scope.

Set Implicit Arguments.

(** ** Python values and exceptions *)

#[local] Unset Elimination Schemes.
Inductive value : Type :=
| VNone
| VBool (b : bool)
| VInt (z : Z)
| VStr (s : string)
| VList (l : list value)
| VDict (d : list (string * value)).
#[local] Set Elimination Schemes.

(** The exceptions the module can raise.  [Exception_fmt p v] is
    [Exception(f"{p}{v}")] for a value [v] whose rendering is left
    symbolic. *)
Inductive exn : Type :=
| KeyError (key : string)
| TypeError (msg : string)
| IndexError (msg : string)
| AttributeError (attr : string)
| NameError (name : string)
| Exception (msg : string)
| Exception_fmt (prefix : string) (arg : value).

Inductive result (A : Type) : Type :=
| Ok (a : A)
| Raise (e : exn).

Arguments Ok {A} a.
Arguments Raise {A} e.

Definition bind {A B} (r : result A) (k : A -> result B) : result B :=
  match r with
  | Ok a => k a
  | Raise e => Raise e
  end.

Notation "x <- r ;; k" := (bind r (fun x => k))
  (at level 61, r at next level, right associativity).

(** [[f(x) for x in xs]], stopping at the first exception. *)
Fixpoint mapM {A B} (f : A -> result B) (xs : list A) : result (list B) :=
  match xs with
  | [] => Ok []
  | x :: xs' => y <- f x ;; ys <- mapM f xs' ;; Ok (y :: ys)
  end.

(** *** Dicts *)

Fixpoint dict_get {A} (k : string) (d : list (string * A)) : option A :=
  match d with
  | [] => None
  | (k', v) :: d' => if String.eqb k' k then Some v else dict_get k d'
  end.

Definition dict_mem {A} (k : string) (d : list (string * A)) : bool :=
  match dict_get k d with
  | Some _ => true
  | None => false
  end.

(** [d[k] = v]: an existing key keeps its position, a new one goes last. *)
Fixpoint dict_set {A} (k : string) (v : A) (d : list (string * A))
  : list (string * A) :=
  match d with
  | [] => [(k, v)]
  | (k', v') :: d' =>
      if String.eqb k' k then (k, v) :: d' else (k', v') :: dict_set k v d'
  end.

Definition dict_values {A} (d : list (string * A)) : list A := map snd d.

(** *** Truth value, equality, subscript, iteration *)

(** [bool(v)]. *)
Definition truthy (v : value) : bool :=
  match v with
  | VNone => false
  | VBool b => b
  | VInt z => negb (Z.eqb z 0)
  | VStr s => negb (String.eqb s "")
  | VList l => match l with [] => false | _ => true end
  | VDict d => match d with [] => false | _ => true end
  end.

(** [a == b].  [True == 1] and [False == 0] hold in Python; two dicts are
    equal when they have the same keys with equal values, in any order. *)
Fixpoint py_eq (a b : value) {struct a} : bool :=
  match a, b with
  | VNone, VNone => true
  | VBool x, VBool y => Bool.eqb x y
  | VBool x, VInt z => Z.eqb (if x then 1 else 0) z
  | VInt z, VBool x => Z.eqb z (if x then 1 else 0)
  | VInt x, VInt y => Z.eqb x y
  | VStr x, VStr y => String.eqb x y
  | VList xs, VList ys =>
      (fix all2 (xs ys : list value) {struct xs} : bool :=
         match xs, ys with
         | [], [] => true
         | x :: xs', y :: ys' => py_eq x y && all2 xs' ys'
         | _, _ => false
         end) xs ys
  | VDict d1, VDict d2 =>
      Nat.eqb (length d1) (length d2) &&
      (fix sub (d : list (string * value)) {struct d} : bool :=
         match d with
         | [] => true
         | (k, v) :: d' =>
             match dict_get k d2 with
             | Some v' => py_eq v v'
             | None => false
             end && sub d'
         end) d1
  | _, _ => false
  end.

(** [v in vs] for a list [vs]. *)
Definition py_in (v : value) (vs : list value) : bool :=
  existsb (fun w => py_eq v w) vs.

(** [v[k]] for a string key [k]. *)
Definition subscript (v : value) (k : string) : result value :=
  match v with
  | VDict d =>
      match dict_get k d with
      | Some x => Ok x
      | None => Raise (KeyError k)
      end
  | VNone => Raise (TypeError "'NoneType' object is not subscriptable")
  | VBool _ => Raise (TypeError "'bool' object is not subscriptable")
  | VInt _ => Raise (TypeError "'int' object is not subscriptable")
  | VStr _ => Raise (TypeError "string indices must be integers")
  | VList _ => Raise (TypeError "list indices must be integers or slices, not str")
  end.

Fixpoint chars (s : string) : list value :=
  match s with
  | EmptyString => []
  | String c s' => VStr (String c EmptyString) :: chars s'
  end.

(** The items a [for x in v] loop visits. *)
Definition py_iter (v : value) : result (list value) :=
  match v with
  | VList l => Ok l
  | VDict d => Ok (map (fun kv => VStr (fst kv)) d)
  | VStr s => Ok (chars s)
  | VNone => Raise (TypeError "'NoneType' object is not iterable")
  | VBool _ => Raise (TypeError "'bool' object is not iterable")
  | VInt _ => Raise (TypeError "'int' object is not iterable")
  end.

(** ** class TypeRef *)

Module TypeRef.

(** The instance attributes, in the order [__init__] assigns them. *)
Record t : Type := Build {
  name : value;
  kind : value;
  is_list : bool;
  is_list_item_nullable : bool;
  is_nullable : bool;
  is_input_object : bool;
  non_null : bool;
  list_ : bool;
  non_null_item : bool
}.

(** [TypeRef(name, kind, is_list, is_list_item_nullable, is_nullable,
    is_input_object)]. *)
Definition init (name kind : value)
    (is_list is_list_item_nullable is_nullable is_input_object : bool) : t :=
  {| name := name;
     kind := kind;
     is_list := is_list;
     is_list_item_nullable := is_list_item_nullable;
     is_nullable := is_nullable;
     is_input_object := is_input_object;
     non_null := negb is_nullable;
     list_ := is_list;
     non_null_item := negb is_list_item_nullable |}.

(** The keyword defaults of [__init__]:
    [is_list=False, is_list_item_nullable=False, is_nullable=True,
     is_input_object=False]. *)
Definition default_is_list := false.
Definition default_is_list_item_nullable := false.
Definition default_is_nullable := true.
Definition default_is_input_object := false.

(** [TypeRef(name=.., kind=..)]. *)
Definition init2 (name kind : value) : t :=
  init name kind default_is_list default_is_list_item_nullable
       default_is_nullable default_is_input_object.

(** [TypeRef()]. *)
Definition init0 : t := init2 (VStr "") (VStr "").

(** [__eq__] against another TypeRef: every attribute is compared. *)
Definition eq (self other : t) : bool :=
  py_eq (name self) (name other) &&
  py_eq (kind self) (kind other) &&
  Bool.eqb (is_list self) (is_list other) &&
  Bool.eqb (is_list_item_nullable self) (is_list_item_nullable other) &&
  Bool.eqb (is_nullable self) (is_nullable other) &&
  Bool.eqb (is_input_object self) (is_input_object other) &&
  Bool.eqb (non_null self) (non_null other) &&
  Bool.eqb (list_ self) (list_ other) &&
  Bool.eqb (non_null_item self) (non_null_item other).

(** [x == ref] where [x] is what the decoder returned: a TypeRef, or
    [None], which no TypeRef equals. *)
Definition eq_opt (x : option t) (ref : t) : bool :=
  match x with
  | Some r => eq r ref
  | None => false
  end.

Definition node (kind name ofType : value) : value :=
  VDict [("kind", kind); ("name", name); ("ofType", ofType)].

Definition to_json (self : t) : result value :=
  let j := node (kind self) (name self) VNone in
  let j := if non_null_item self then node (VStr "NON_NULL") VNone j else j in
  let j := if list_ self then node (VStr "LIST") VNone j else j in
  let j := if non_null self then node (VStr "NON_NULL") VNone j else j in
  if is_input_object self
  then (* the instance has no attribute [ofType] *)
    Raise (AttributeError "ofType")
  else Ok j.

End TypeRef.

(** ** field_or_arg_type_from_json *)

Definition is_wrapper_kind (k : value) : bool :=
  py_in k [VStr "NON_NULL"; VStr "LIST"].

(** The function returns its local [typ], which is still [None] on one
    path, hence the [option]. *)
Definition field_or_arg_type_from_json (jso : value)
  : result (option TypeRef.t) :=
  k <- subscript jso "kind" ;;
  if negb (is_wrapper_kind k) then
    n <- subscript jso "name" ;;
    k <- subscript jso "kind" ;;
    Ok (Some (TypeRef.init2 n k))
  else
    o1 <- subscript jso "ofType" ;;
    o2 <- subscript o1 "ofType" ;;
    if negb (truthy o2) then
      let actual_type := o1 in
      if py_eq k (VStr "NON_NULL") then
        n <- subscript actual_type "name" ;;
        ak <- subscript actual_type "kind" ;;
        Ok (Some (TypeRef.init n ak TypeRef.default_is_list
                    TypeRef.default_is_list_item_nullable false
                    TypeRef.default_is_input_object))
      else if py_eq k (VStr "LIST") then
        n <- subscript actual_type "name" ;;
        ak <- subscript actual_type "kind" ;;
        Ok (Some (TypeRef.init n ak true
                    TypeRef.default_is_list_item_nullable
                    TypeRef.default_is_nullable
                    TypeRef.default_is_input_object))
      else if py_eq k (VStr "INPUT_OBJECT") then
        n <- subscript actual_type "name" ;;
        ak <- subscript actual_type "kind" ;;
        Ok (Some (TypeRef.init n ak TypeRef.default_is_list
                    TypeRef.default_is_list_item_nullable
                    TypeRef.default_is_nullable true))
      else Raise (Exception_fmt "Unexpected type.kind: " k)
    else
      o3 <- subscript o2 "ofType" ;;
      if negb (truthy o3) then
        let actual_type := o2 in
        if py_eq k (VStr "NON_NULL") then
          Ok None
        else if py_eq k (VStr "LIST") then
          n <- subscript actual_type "name" ;;
          ak <- subscript actual_type "kind" ;;
          Ok (Some (TypeRef.init n ak true false
                      TypeRef.default_is_nullable
                      TypeRef.default_is_input_object))
        else Raise (Exception_fmt "Unexpected type.kind: " k)
      else
        o4 <- subscript o3 "ofType" ;;
        if negb (truthy o4) then
          let actual_type := o3 in
          n <- subscript actual_type "name" ;;
          ak <- subscript actual_type "kind" ;;
          Ok (Some (TypeRef.init n ak true false false
                      TypeRef.default_is_input_object))
        else Raise (Exception "Invalid field or arg (too many 'ofType')").

(** ** Names bound at module level *)

Inductive global_object : Type :=
| Module_ (n : string)
| Class_ (n : string)
| Function_ (n : string).

(** What the [import], [def] and [class] statements of the module bind.
    The builtins hold no [none] either: the constant is the keyword
    [None]. *)
Definition module_globals : list (string * global_object) :=
  [ ("urllib3", Module_ "urllib3"); ("requests", Module_ "requests");
    ("json", Module_ "json"); ("logging", Module_ "logging");
    ("List", Class_ "typing.List"); ("Dict", Class_ "typing.Dict");
    ("Any", Class_ "typing.Any"); ("Set", Class_ "typing.Set");
    ("post", Function_ "post"); ("Schema", Class_ "Schema");
    ("Config", Class_ "Config"); ("TypeRef", Class_ "TypeRef");
    ("InputValue", Class_ "InputValue");
    ("field_or_arg_type_from_json", Function_ "field_or_arg_type_from_json");
    ("Field", Class_ "Field"); ("Type", Class_ "Type") ].

(** Reading a global name inside a function body. *)
Definition load_global (x : string) : result global_object :=
  match dict_get x module_globals with
  | Some g => Ok g
  | None => Raise (NameError x)
  end.

(** ** class InputValue *)

Module InputValue.

Record t : Type := Build {
  name : value;
  type : TypeRef.t;
  defaultValue : global_object
}.

(** [InputValue(name, typ)].  The third assignment reads the global
    [none]. *)
Definition init (name : value) (typ : option TypeRef.t) : result t :=
  let self_name := name in
  let self_type := match typ with Some r => r | None => TypeRef.init0 end in
  d <- load_global "none" ;;
  Ok {| name := self_name; type := self_type; defaultValue := d |}.

Definition to_json (self : t) : result value :=
  ty <- TypeRef.to_json (type self) ;;
  Ok (VDict [ ("defaultValue", VNone);
              ("description", VNone);
              ("name", name self);
              ("type", ty) ]).

End InputValue.

(** ** class Field *)

Module Field.

Record t : Type := Build {
  name : value;
  type : TypeRef.t;
  args : list InputValue.t
}.

(** [Field(name, typ, args)] with [typ or TypeRef()] and [args or []]. *)
Definition init (name : value) (typ : option TypeRef.t)
    (args : option (list InputValue.t)) : t :=
  {| name := name;
     type := match typ with Some r => r | None => TypeRef.init0 end;
     args := match args with Some l => l | None => [] end |}.

Definition to_json (self : t) : result value :=
  js <- mapM InputValue.to_json (args self) ;;
  ty <- TypeRef.to_json (type self) ;;
  Ok (VDict [ ("args", VList js);
              ("deprecationReason", VNone);
              ("description", VNone);
              ("isDeprecated", VBool false);
              ("name", name self);
              ("type", ty) ]).

End Field.

(** ** Field.from_json and InputValue.from_json

    The two class methods call each other along the nesting of the wire
    document; the fuel bounds that depth. *)

Fixpoint mapF {A B} (f : A -> option (result B)) (xs : list A)
  : option (result (list B)) :=
  match xs with
  | [] => Some (Ok [])
  | x :: xs' =>
      match f x with
      | None => None
      | Some (Raise e) => Some (Raise e)
      | Some (Ok y) =>
          match mapF f xs' with
          | None => None
          | Some (Raise e) => Some (Raise e)
          | Some (Ok ys) => Some (Ok (y :: ys))
          end
      end
  end.

Fixpoint Field_from_json (fuel : nat) (jso : value) {struct fuel}
  : option (result Field.t) :=
  match fuel with
  | O => None
  | S fuel' =>
      match (name <- subscript jso "name" ;;
             ty <- subscript jso "type" ;;
             typ <- field_or_arg_type_from_json ty ;;
             a <- subscript jso "args" ;;
             items <- py_iter a ;;
             Ok (name, typ, items)) with
      | Raise e => Some (Raise e)
      | Ok (name, typ, items) =>
          match mapF (InputValue_from_json fuel') items with
          | None => None
          | Some (Raise e) => Some (Raise e)
          | Some (Ok args) => Some (Ok (Field.init name typ (Some args)))
          end
      end
  end

with InputValue_from_json (fuel : nat) (jso : value) {struct fuel}
  : option (result InputValue.t) :=
  match fuel with
  | O => None
  | S fuel' =>
      match (name <- subscript jso "name" ;;
             ty <- subscript jso "type" ;;
             typ <- field_or_arg_type_from_json ty ;;
             fs <- subscript jso "input_fields" ;;
             items <- py_iter fs ;;
             Ok (name, typ, items)) with
      | Raise e => Some (Raise e)
      | Ok (name, typ, items) =>
          match mapF (Field_from_json fuel') items with
          | None => None
          | Some (Raise e) => Some (Raise e)
          | Some (Ok input_fields) => Some (InputValue.init name typ)
          end
      end
  end.

(** ** class Type *)

Module Type_.

Record t : Type := Build {
  name : value;
  kind : value;
  fields : list Field.t
}.

(** [Type(name, kind, fields)] with [fields or []]. *)
Definition init (name kind : value) (fields : option (list Field.t)) : t :=
  {| name := name;
     kind := kind;
     fields := match fields with Some l => l | None => [] end |}.

(** [dummy = Field("dummy"); dummy.type = TypeRef(name="String",
    kind="SCALAR")]. *)
Definition dummy : Field.t :=
  let dummy := Field.init (VStr "dummy") None None in
  {| Field.name := Field.name dummy;
     Field.type := TypeRef.init2 (VStr "String") (VStr "SCALAR");
     Field.args := Field.args dummy |}.

(** The first statement of [to_json]: an empty field list receives the
    placeholder. *)
Definition inject_dummy (self : t) : t :=
  match fields self with
  | [] => {| name := name self; kind := kind self;
             fields := fields self ++ [dummy] |}
  | _ :: _ => self
  end.

Definition output_head (self : t) : list (string * value) :=
  [ ("description", VNone);
    ("enumValues", VNone);
    ("interfaces", VList []);
    ("kind", kind self);
    ("name", name self);
    ("possibleTypes", VNone) ].

(** Returns the wire object (or the exception) and the receiver after
    the call. *)
Definition to_json (self : t) : result value * t :=
  let self := inject_dummy self in
  let output := output_head self in
  if py_in (kind self) [VStr "OBJECT"; VStr "INTERFACE"] then
    (js <- mapM Field.to_json (fields self) ;;
     let output := dict_set "fields" (VList js) output in
     let output := dict_set "inputFields" VNone output in
     Ok (VDict output),
     self)
  else if py_eq (kind self) (VStr "INPUT_OBJECT") then
    (let output := dict_set "fields" VNone output in
     js <- mapM Field.to_json (fields self) ;;
     let output := dict_set "inputFields" (VList js) output in
     Ok (VDict output),
     self)
  else (Ok (VDict output), self).

(** The loop of [from_json] over the wire fields. *)
Fixpoint from_json_fields (fuel : nat) (items : list value)
  : option (result (list Field.t)) :=
  match items with
  | [] => Some (Ok [])
  | f :: items' =>
      match subscript f "name" with
      | Raise e => Some (Raise e)
      | Ok n =>
          if py_eq n (VStr "dummy") then from_json_fields fuel items'
          else
            match Field_from_json fuel f with
            | None => None
            | Some (Raise e) => Some (Raise e)
            | Some (Ok fld) =>
                match from_json_fields fuel items' with
                | None => None
                | Some (Raise e) => Some (Raise e)
                | Some (Ok flds) => Some (Ok (fld :: flds))
                end
            end
      end
  end.

Definition from_json (fuel : nat) (jso : value) : option (result t) :=
  match (name <- subscript jso "name" ;;
         kind <- subscript jso "kind" ;;
         Ok (name, kind)) with
  | Raise e => Some (Raise e)
  | Ok (name, kind) =>
      if py_in kind [VStr "OBJECT"; VStr "INTERFACE"; VStr "INPUT_OBJECT"]
      then
        let fields_field :=
          if py_in kind [VStr "OBJECT"; VStr "INTERFACE"] then "fields"
          else if py_eq kind (VStr "INPUT_OBJECT") then "inputFields"
          else "" in
        match (fs <- subscript jso fields_field ;; py_iter fs) with
        | Raise e => Some (Raise e)
        | Ok items =>
            match from_json_fields fuel items with
            | None => None
            | Some (Raise e) => Some (Raise e)
            | Some (Ok fields) => Some (Ok (init name kind (Some fields)))
            end
        end
      else Some (Ok (init name kind (Some [])))
  end.

End Type_.

(** ** class Schema *)

(** The dict [self._schema]: [__init__] creates it with these five keys and
    no method adds or removes one. *)
Module SchemaDict.

Record t : Type := Build {
  directives : value;
  mutationType : value;
  queryType : value;
  subscriptionType : value;
  types : list value
}.

Definition to_value (d : t) : value :=
  VDict [ ("directives", directives d);
          ("mutationType", mutationType d);
          ("queryType", queryType d);
          ("subscriptionType", subscriptionType d);
          ("types", VList (types d)) ].

End SchemaDict.

Module Schema.

(** [self._schema] and [self.types].  The dict [types] owns one Type
    object per name; a caller that mutates [schema.types[n]] replaces
    the entry. *)
Record t : Type := Build {
  _schema : SchemaDict.t;
  types : list (string * Type_.t)
}.

(** [{"name": x} if x else None] for an optional string argument. *)
Definition root_binding (x : option string) : value :=
  match x with
  | Some s => if truthy (VStr s) then VDict [("name", VStr s)] else VNone
  | None => VNone
  end.

Definition add_type (self : t) (name kind : string) : t :=
  if negb (dict_mem name (types self)) then
    let typ := Type_.init (VStr name) (VStr kind) None in
    {| _schema := _schema self;
       types := dict_set name typ (types self) |}
  else self.

Definition add_root (self : t) (binding : value) (x : option string) : t :=
  if truthy binding then
    match x with
    | Some n => add_type self n "OBJECT"
    | None => self
    end
  else self.

(** [Schema(queryType, mutationType, subscriptionType)], the branch of
    [__init__] taken when no introspection document is given. *)
Definition init (queryType mutationType subscriptionType : option string) : t :=
  let q := root_binding queryType in
  let m := root_binding mutationType in
  let s := root_binding subscriptionType in
  let self :=
    {| _schema := {| SchemaDict.directives := VList [];
                     SchemaDict.mutationType := m;
                     SchemaDict.queryType := q;
                     SchemaDict.subscriptionType := s;
                     SchemaDict.types := [] |};
       types := [ ("String", Type_.init (VStr "String") (VStr "SCALAR") None);
                  ("ID", Type_.init (VStr "ID") (VStr "SCALAR") None) ] |} in
  let self := add_root self q queryType in
  let self := add_root self m mutationType in
  add_root self s subscriptionType.

(** What the discovery code does with a Field it has learnt:
    [schema.types[name].fields.append(f)]. *)
Definition append_field (self : t) (name : string) (f : Field.t) : result t :=
  match dict_get name (types self) with
  | None => Raise (KeyError name)
  | Some ty =>
      let ty' := {| Type_.name := Type_.name ty;
                    Type_.kind := Type_.kind ty;
                    Type_.fields := Type_.fields ty ++ [f] |} in
      Ok {| _schema := _schema self;
            types := dict_set name ty' (types self) |}
  end.

(** The loop of [to_json] over [self.types.values()]: the wire objects
    appended so far, how the loop ended, and the Type objects after it. *)
Fixpoint to_json_loop (ts : list (string * Type_.t))
  : list value * result unit * list (string * Type_.t) :=
  match ts with
  | [] => ([], Ok tt, [])
  | (k, ty) :: rest =>
      let (r, ty') := Type_.to_json ty in
      match r with
      | Raise e => ([], Raise e, (k, ty') :: rest)
      | Ok w =>
          let '(ws, r', rest') := to_json_loop rest in
          (w :: ws, r', (k, ty') :: rest')
      end
  end.

(** The document handed to [json.dumps]. *)
Definition document (d : SchemaDict.t) : value :=
  VDict [("data", VDict [("__schema", SchemaDict.to_value d)])].

(** [to_json] up to the rendering of the document as text: the result is
    the document that [json.dumps(schema, indent=4, sort_keys=True)]
    prints.  The document shares [self._schema], so what the loop appends
    stays in the Schema. *)
Definition to_json (self : t) : result value * t :=
  let '(ws, r, ts') := to_json_loop (types self) in
  let d := _schema self in
  let d' := {| SchemaDict.directives := SchemaDict.directives d;
               SchemaDict.mutationType := SchemaDict.mutationType d;
               SchemaDict.queryType := SchemaDict.queryType d;
               SchemaDict.subscriptionType := SchemaDict.subscriptionType d;
               SchemaDict.types := SchemaDict.types d ++ ws |} in
  let self' := {| _schema := d'; types := ts' |} in
  (_ <- r ;; Ok (document d'), self').

(** [self._schema[key]["name"] if self._schema[key] else ""]. *)
Definition root_name (binding : value) : result value :=
  if truthy binding then subscript binding "name" else Ok (VStr "").

Definition roots (self : t) : result (list value) :=
  q <- root_name (SchemaDict.queryType (_schema self)) ;;
  m <- root_name (SchemaDict.mutationType (_schema self)) ;;
  s <- root_name (SchemaDict.subscriptionType (_schema self)) ;;
  Ok (filter truthy [q; m; s]).

(** The local variables [name] and [path_from_root]. *)
Definition search : Type := (value * list value)%type.

(** [for f in t.fields: if f.type.name == name: ...]. *)
Definition scan_fields (ty : Type_.t) (st : search) : search :=
  fold_left
    (fun (st : search) (f : Field.t) =>
       let (name, path_from_root) := st in
       if py_eq (TypeRef.name (Field.type f)) name
       then (Type_.name ty, Field.name f :: path_from_root)
       else (name, path_from_root))
    (Type_.fields ty) st.

(** [for t in self.types.values(): ...]. *)
Definition scan_types (self : t) (st : search) : search :=
  fold_left (fun st ty => scan_fields ty st) (dict_values (types self)) st.

(** [while name not in roots: ...], at most [fuel] tests of the
    condition. *)
Fixpoint while_not_root (fuel : nat) (self : t) (roots : list value)
    (st : search) : option search :=
  match fuel with
  | O => None
  | S fuel' =>
      if negb (py_in (fst st) roots)
      then while_not_root fuel' self roots (scan_types self st)
      else Some st
  end.

(** The same loop as a relation between the state at its entry and the
    state at its exit. *)
Inductive while_exits (self : t) (roots : list value) : search -> search -> Prop :=
| while_done st :
    py_in (fst st) roots = true ->
    while_exits self roots st st
| while_again st st' :
    py_in (fst st) roots = false ->
    while_exits self roots (scan_types self st) st' ->
    while_exits self roots st st'.

Definition get_path_from_root (fuel : nat) (self : t) (name : string)
  : option (result (list value)) :=
  if negb (dict_mem name (types self)) then
    Some (Raise (Exception ("Type '" ++ name ++ "' not in schema!")))
  else
    match roots self with
    | Raise e => Some (Raise e)
    | Ok rs =>
        match while_not_root fuel self rs (VStr name, []) with
        | None => None
        | Some (name', path_from_root) => Some (Ok (name' :: path_from_root))
        end
    end.

(** [while len(path) > 1: doc = f"{path.pop()} {{ {doc} }}"]; each turn
    shortens [path], so [length path] turns are enough. *)
Fixpoint pop_loop (turns : nat) (path : list string) (doc : string)
  : list string * string :=
  match turns with
  | O => (path, doc)
  | S turns' =>
      if Nat.ltb 1 (length path)
      then pop_loop turns' (removelast path)
                    (last path "" ++ " { " ++ doc ++ " }")
      else (path, doc)
  end.

(** Returns the document (or the exception) and the list [path] as the
    call leaves it. *)
Definition convert_path_to_document (self : t) (path : list string)
  : result string * list string :=
  let (path, doc) := pop_loop (length path) path "FUZZ" in
  (match path with
   | [] => Raise (IndexError "list index out of range")
   | p0 :: _ =>
       q <- subscript (SchemaDict.queryType (_schema self)) "name" ;;
       if py_eq (VStr p0) q then Ok ("query { " ++ doc ++ " }")
       else
         m <- subscript (SchemaDict.mutationType (_schema self)) "name" ;;
         if py_eq (VStr p0) m then Ok ("mutation { " ++ doc ++ " }")
         else
           s <- subscript (SchemaDict.subscriptionType (_schema self)) "name" ;;
           if py_eq (VStr p0) s then Ok ("subscription { " ++ doc ++ " }")
           else Raise (Exception "Unknown operation type")
   end,
   path).

(** The argument [ignore]: annotated as a set of strings, with a list as
    its default.  A membership test hashes its operand in a set and only
    compares it in a list. *)
Inductive container : Type :=
| PyList (items : list string)
| PySet (items : list string).

(** [x in c]. *)
Definition contains (c : container) (x : value) : result bool :=
  match c with
  | PyList items => Ok (existsb (fun s => py_eq x (VStr s)) items)
  | PySet items =>
      match x with
      | VList _ => Raise (TypeError "unhashable type: 'list'")
      | VDict _ => Raise (TypeError "unhashable type: 'dict'")
      | _ => Ok (existsb (fun s => py_eq x (VStr s)) items)
      end
  end.

(** The default [ignore=[]]. *)
Definition default_ignore : container := PyList [].

(** The loop of [get_type_without_fields] over [self.types.values()]. *)
Fixpoint first_without_fields (ts : list Type_.t) (ignore : container)
  : result value :=
  match ts with
  | [] => Ok (VStr "")
  | ty :: ts' =>
      match Type_.fields ty with
      | [] =>
          ign <- contains ignore (Type_.name ty) ;;
          if negb ign && negb (py_eq (Type_.kind ty) (VStr "INPUT_OBJECT"))
          then Ok (Type_.name ty)
          else first_without_fields ts' ignore
      | _ :: _ => first_without_fields ts' ignore
      end
  end.

Definition get_type_without_fields (self : t) (ignore : container)
  : result value :=
  first_without_fields (dict_values (types self)) ignore.

End Schema.

(** ** Sample objects used in the statements below *)

(** [Schema(queryType="Query")] after the discovery of
    [Query.a : TypeA] and [TypeA.b : TypeB]. *)
Definition object_field (name type_name : string) : Field.t :=
  Field.init (VStr name)
             (Some (TypeRef.init2 (VStr type_name) (VStr "OBJECT"))) None.

Definition sample_schema : result Schema.t :=
  let s := Schema.init (Some "Query") None None in
  let s := Schema.add_type s "TypeA" "OBJECT" in
  s <- Schema.append_field s "Query" (object_field "a" "TypeA") ;;
  let s := Schema.add_type s "TypeB" "OBJECT" in
  Schema.append_field s "TypeA" (object_field "b" "TypeB").

(** The same discovery without the registration of [TypeB]. *)
Definition sample_schema_without_TypeB : result Schema.t :=
  let s := Schema.init (Some "Query") None None in
  let s := Schema.add_type s "TypeA" "OBJECT" in
  s <- Schema.append_field s "Query" (object_field "a" "TypeA") ;;
  Schema.append_field s "TypeA" (object_field "b" "TypeB").

(** [Schema(queryType="Query")] after the discovery of a field of
    [Query] whose TypeRef is flagged as an input object. *)
Definition flagged_field : Field.t :=
  Field.init (VStr "filter")
    (Some (TypeRef.init (VStr "Filter") (VStr "INPUT_OBJECT")
             false false true true)) None.

Definition flagged_schema : result Schema.t :=
  Schema.append_field (Schema.init (Some "Query") None None) "Query"
                      flagged_field.

(** [NON_NULL(NON_NULL(String))], the wire node that
    [TypeRef(name="String", kind="SCALAR", is_nullable=False).to_json()]
    builds. *)
Definition non_null_non_null_string : value :=
  TypeRef.node (VStr "NON_NULL") VNone
    (TypeRef.node (VStr "NON_NULL") VNone
       (TypeRef.node (VStr "SCALAR") (VStr "String") VNone)).

(** A node of kind OBJECT that carries four levels of [ofType]. *)
Definition deep_object_node : value :=
  TypeRef.node (VStr "OBJECT") (VStr "T")
    (TypeRef.node (VStr "NON_NULL") VNone
       (TypeRef.node (VStr "LIST") VNone
          (TypeRef.node (VStr "NON_NULL") VNone
             (TypeRef.node (VStr "SCALAR") (VStr "String") VNone)))).

(** [NON_NULL(LIST(NON_NULL(base)))] where the [ofType] of the base node
    is an empty object instead of null. *)
Definition wrappers_over_empty_ofType : value :=
  TypeRef.node (VStr "NON_NULL") VNone
    (TypeRef.node (VStr "LIST") VNone
       (TypeRef.node (VStr "NON_NULL") VNone
          (TypeRef.node (VStr "SCALAR") (VStr "String") (VDict [])))).

(** [NON_NULL(LIST(NON_NULL(LIST(String))))]. *)
Definition four_wrappers : value :=
  TypeRef.node (VStr "NON_NULL") VNone
    (TypeRef.node (VStr "LIST") VNone
       (TypeRef.node (VStr "NON_NULL") VNone
          (TypeRef.node (VStr "LIST") VNone
             (TypeRef.node (VStr "SCALAR") (VStr "String") VNone)))).

(** [decode(encode(ref)) == ref], [False] when either step raises. *)
Definition round_trips (ref : TypeRef.t) : bool :=
  match j <- TypeRef.to_json ref ;; field_or_arg_type_from_json j with
  | Ok got => TypeRef.eq_opt got ref
  | Raise _ => false
  end.

(** What [to_json] needs of a TypeRef, an InputValue and a Field in order
    to return: no reference is flagged as an input object. *)
Definition TypeRef_serializable (r : TypeRef.t) : bool :=
  negb (TypeRef.is_input_object r).

Definition InputValue_serializable (a : InputValue.t) : bool :=
  TypeRef_serializable (InputValue.type a).

Definition Field_serializable (f : Field.t) : bool :=
  forallb InputValue_serializable (Field.args f) &&
  TypeRef_serializable (Field.type f).

Definition Type_serializable (ty : Type_.t) : bool :=
  forallb Field_serializable (Type_.fields ty).

(** The receiver after [n] calls of [Type.to_json]. *)
Definition after_to_json (n : nat) (ty : Type_.t) : Type_.t :=
  Nat.iter n (fun x => snd (Type_.to_json x)) ty.

(** No field of any Type of the Schema has a type called [name]. *)
Definition no_producer (s : Schema.t) (name : value) : bool :=
  forallb
    (fun ty =>
       forallb (fun f => negb (py_eq (TypeRef.name (Field.type f)) name))
               (Type_.fields ty))
    (dict_values (Schema.types s)).

(** The Type objects of a Schema after a call of [to_json] that returned. *)
Definition settled (ts : list (string * Type_.t)) : list (string * Type_.t) :=
  map (fun kt => (fst kt, Type_.inject_dummy (snd kt))) ts.

(** [w] is the wire object of the Type stored in the entry [kt]. *)
Definition wire_of (kt : string * Type_.t) (w : value) : Prop :=
  fst (Type_.to_json (snd kt)) = Ok w.

(** ** Notions used in the statements on the rest of the module *)

(** Nesting depth of a wire value. *)
Fixpoint depth (v : value) : nat :=
  match v with
  | VList l =>
      S ((fix deepest (l : list value) : nat :=
            match l with
            | [] => 0
            | x :: l' => Nat.max (depth x) (deepest l')
            end) l)
  | VDict d =>
      S ((fix deepest (d : list (string * value)) : nat :=
            match d with
            | [] => 0
            | (_, x) :: d' => Nat.max (depth x) (deepest d')
            end) d)
  | _ => 0
  end.

(** The selection set that [convert_path_to_document] builds around the
    placeholder for the field names [fields], outermost first. *)
Definition selection (fields : list string) : string :=
  fold_right (fun f doc => f ++ " { " ++ doc ++ " }") "FUZZ" fields.

(** The dict [types] has one entry per key, and the Type stored under a
    key bears that key as its name. *)
Definition well_keyed (ts : list (string * Type_.t)) : Prop :=
  NoDup (map fst ts)
  /\ Forall (fun kt => Type_.name (snd kt) = VStr (fst kt)) ts.

(** A field whose type is called [name]. *)
Definition produces (name : value) (f : Field.t) : bool :=
  py_eq (TypeRef.name (Field.type f)) name.

(** A field that [Field.from_json] reads back as it was written: no
    arguments, and a list type with non-nullable items. *)
Definition plain_list_field (f : Field.t) : Prop :=
  Field.args f = []
  /\ exists n k nn,
       Field.type f = TypeRef.init (VStr n) (VStr k) true false nn false.

(** What [get_type_without_fields] looks for, for a list as [ignore]. *)
Definition undiscovered (ignore : list string) (ty : Type_.t) : bool :=
  match Type_.fields ty with
  | [] =>
      negb (existsb (fun s => py_eq (Type_.name ty) (VStr s)) ignore)
      && negb (py_eq (Type_.kind ty) (VStr "INPUT_OBJECT"))
  | _ :: _ => false
  end.

(** The root name that an argument of [Schema(...)] binds: none when the
    argument is omitted or is the empty string. *)
Definition given (x : option string) : list string :=
  match x with
  | Some n => if String.eqb n "" then [] else [n]
  | None => []
  end.

(** [for t in ts: for f in t.fields: ...] over a part of the Types. *)
Definition scan_list (ts : list Type_.t) (st : Schema.search) : Schema.search :=
  fold_left (fun st ty => Schema.scan_fields ty st) ts st.

(** No field of the Types [ts] has a type called [name]. *)
Definition none_produces (name : value) (ts : list Type_.t) : bool :=
  forallb (fun ty => forallb (fun f => negb (produces name f)) (Type_.fields ty))
          ts.

(** [Schema(...)] registers its roots one after the other. *)
Definition add_roots (names : list string) (s : Schema.t) : Schema.t :=
  fold_left (fun s n => Schema.add_type s n "OBJECT") names s.

(** The Schema before its roots are registered. *)
Definition seeded (q m sub : option string) : Schema.t :=
  {| Schema._schema :=
       {| SchemaDict.directives := VList [];
          SchemaDict.mutationType := Schema.root_binding m;
          SchemaDict.queryType := Schema.root_binding q;
          SchemaDict.subscriptionType := Schema.root_binding sub;
          SchemaDict.types := [] |};
     Schema.types :=
       [ ("String", Type_.init (VStr "String") (VStr "SCALAR") None);
         ("ID", Type_.init (VStr "ID") (VStr "SCALAR") None) ] |}.

(** The Schema after [n] calls of [to_json]. *)
Definition after_Schema_to_json (n : nat) (s : Schema.t) : Schema.t :=
  Nat.iter n (fun x => snd (Schema.to_json x)) s.

(** * Properties *)

(** ** The error monad and dicts *)

Lemma bind_Ok_inv {A B} (r : result A) (k : A -> result B) (b : B) :
  bind r k = Ok b -> exists a, r = Ok a /\ k a = Ok b.
Proof.
  destruct r as [a|e]; simpl; intros H.
  - exists a. split; [reflexivity | exact H].
  - discriminate H.
Qed.

Lemma mapM_total {A B} (f : A -> result B) (xs : list A) :
  Forall (fun x => exists y, f x = Ok y) xs ->
  exists ys, mapM f xs = Ok ys /\ Forall2 (fun x y => f x = Ok y) xs ys.
Proof.
  induction 1 as [|x xs [y Hy] _ [ys [Hys HF]]].
  - exists []. split; constructor.
  - exists (y :: ys). simpl. rewrite Hy, Hys. simpl.
    split; [reflexivity | constructor; assumption].
Qed.

Lemma dict_get_set_same {A} (k : string) (v : A) (d : list (string * A)) :
  dict_get k (dict_set k v d) = Some v.
Proof.
  induction d as [|[k' v'] d IH]; simpl.
  - now rewrite String.eqb_refl.
  - destruct (String.eqb k' k) eqn:E; simpl.
    + now rewrite String.eqb_refl.
    + now rewrite E.
Qed.

Lemma dict_mem_set_same {A} (k : string) (v : A) (d : list (string * A)) :
  dict_mem k (dict_set k v d) = true.
Proof. unfold dict_mem. now rewrite dict_get_set_same. Qed.

Lemma subscript_Ok_truthy (v x : value) (k : string) :
  subscript v k = Ok x -> truthy v = true.
Proof.
  destruct v as [| | | | |d]; simpl; try discriminate.
  destruct d; [discriminate | reflexivity].
Qed.

(** ** TypeRef codec *)

(** The two list shapes with non-nullable items survive the round trip. *)
Lemma round_trip_list_of_non_null (n k : string) (is_nullable : bool) :
  let ref := TypeRef.init (VStr n) (VStr k) true false is_nullable false in
  (j <- TypeRef.to_json ref ;; field_or_arg_type_from_json j) = Ok (Some ref).
Proof. destruct is_nullable; reflexivity. Qed.

(** Which references with string name and kind survive the round trip:
    exactly the lists whose items are flagged non-nullable. *)
Lemma round_trips_iff (n k : string) (l i nn : bool) :
  round_trips (TypeRef.init (VStr n) (VStr k) l i nn false) = l && negb i.
Proof.
  unfold round_trips, field_or_arg_type_from_json, is_wrapper_kind.
  destruct l, i, nn; cbn;
    repeat match goal with
      | |- context [String.eqb k ?s] => destruct (String.eqb k s); cbn
      end;
    unfold TypeRef.eq; cbn;
    rewrite ?String.eqb_refl, ?andb_false_r; reflexivity.
Qed.

(** C1, as the code behaves: the bare nullable reference
    [TypeRef(name="String", kind="SCALAR")] is encoded with a NON_NULL
    wrapper, so decoding its wire form returns a non-nullable reference,
    which is not equal to the original. *)
Theorem bare_reference_round_trip_fails :
  let ref := TypeRef.init2 (VStr "String") (VStr "SCALAR") in
  TypeRef.to_json ref
    = Ok (TypeRef.node (VStr "NON_NULL") VNone
            (TypeRef.node (VStr "SCALAR") (VStr "String") VNone))
  /\ (j <- TypeRef.to_json ref ;; field_or_arg_type_from_json j)
     = Ok (Some (TypeRef.init (VStr "String") (VStr "SCALAR")
                   false false false false))
  /\ round_trips ref = false.
Proof. repeat split. Qed.

(** C5, amended: a node whose kind is NON_NULL or LIST and whose [ofType]
    chain is four levels deep, the fourth level being truthy in Python's
    sense (not [None], [False], [0], nor an empty string, list or dict),
    makes the decoder raise
    [Exception("Invalid field or arg (too many 'ofType')")]. *)
Theorem too_many_ofType_raises (jso k o1 o2 o3 o4 : value) :
  subscript jso "kind" = Ok k ->
  is_wrapper_kind k = true ->
  subscript jso "ofType" = Ok o1 ->
  subscript o1 "ofType" = Ok o2 ->
  subscript o2 "ofType" = Ok o3 ->
  subscript o3 "ofType" = Ok o4 ->
  truthy o4 = true ->
  field_or_arg_type_from_json jso
    = Raise (Exception "Invalid field or arg (too many 'ofType')").
Proof.
  intros Hk Hw H1 H2 H3 H4 Ht.
  unfold field_or_arg_type_from_json.
  rewrite Hk; simpl. rewrite Hw; simpl.
  rewrite H1; simpl. rewrite H2; simpl.
  rewrite (subscript_Ok_truthy _ _ H3); simpl.
  rewrite H3; simpl.
  rewrite (subscript_Ok_truthy _ _ H4); simpl.
  rewrite H4; simpl. rewrite Ht; simpl.
  reflexivity.
Qed.

Lemma too_many_ofType_raises_witness :
  field_or_arg_type_from_json four_wrappers
    = Raise (Exception "Invalid field or arg (too many 'ofType')").
Proof.
  apply (@too_many_ofType_raises four_wrappers
           (VStr "NON_NULL")
           (TypeRef.node (VStr "LIST") VNone
              (TypeRef.node (VStr "NON_NULL") VNone
                 (TypeRef.node (VStr "LIST") VNone
                    (TypeRef.node (VStr "SCALAR") (VStr "String") VNone))))
           (TypeRef.node (VStr "NON_NULL") VNone
              (TypeRef.node (VStr "LIST") VNone
                 (TypeRef.node (VStr "SCALAR") (VStr "String") VNone)))
           (TypeRef.node (VStr "LIST") VNone
              (TypeRef.node (VStr "SCALAR") (VStr "String") VNone))
           (TypeRef.node (VStr "SCALAR") (VStr "String") VNone));
    reflexivity.
Defined.

(** C5, as stated, fails: a node of kind OBJECT whose [ofType] chain is
    four levels deep, every level a non-null node, is decoded to a
    TypeRef. *)
Lemma deep_object_node_is_decoded :
  (exists o1 o2 o3 o4,
      subscript deep_object_node "ofType" = Ok o1 /\
      subscript o1 "ofType" = Ok o2 /\
      subscript o2 "ofType" = Ok o3 /\
      subscript o3 "ofType" = Ok o4 /\
      o4 <> VNone /\ truthy o4 = true)
  /\ field_or_arg_type_from_json deep_object_node
     = Ok (Some (TypeRef.init2 (VStr "T") (VStr "OBJECT"))).
Proof.
  split; [|reflexivity].
  do 4 eexists. repeat split; try reflexivity. discriminate.
Qed.

(** The depth tests are truth tests: a fourth level that is present and
    not null, but empty, does not count as a level. *)
Lemma empty_fourth_level_is_decoded :
  (exists o1 o2 o3 o4,
      subscript wrappers_over_empty_ofType "ofType" = Ok o1 /\
      subscript o1 "ofType" = Ok o2 /\
      subscript o2 "ofType" = Ok o3 /\
      subscript o3 "ofType" = Ok o4 /\
      o4 <> VNone /\ truthy o4 = false)
  /\ field_or_arg_type_from_json wrappers_over_empty_ofType
     = Ok (Some (TypeRef.init (VStr "String") (VStr "SCALAR")
                   true false false false)).
Proof.
  split; [|reflexivity].
  do 4 eexists. repeat split; try reflexivity. discriminate.
Qed.

(** A node of kind NON_NULL with exactly two levels below it: the decoder
    returns its initial [typ], [None]. *)
Lemma decode_non_null_two_levels (jso o1 o2 o3 : value) :
  subscript jso "kind" = Ok (VStr "NON_NULL") ->
  subscript jso "ofType" = Ok o1 ->
  subscript o1 "ofType" = Ok o2 ->
  subscript o2 "ofType" = Ok o3 ->
  truthy o3 = false ->
  field_or_arg_type_from_json jso = Ok None.
Proof.
  intros Hk H1 H2 H3 Ht.
  unfold field_or_arg_type_from_json.
  rewrite Hk; simpl. rewrite H1; simpl. rewrite H2; simpl.
  rewrite (subscript_Ok_truthy _ _ H3); simpl.
  rewrite H3; simpl. rewrite Ht; simpl. reflexivity.
Qed.

(** C6, as the code behaves: on [NON_NULL(NON_NULL(String))] the decoder
    raises nothing and returns [None]. *)
Theorem non_null_of_non_null_returns_None :
  field_or_arg_type_from_json non_null_non_null_string = Ok None.
Proof. reflexivity. Qed.

(** ** InputValue *)

(** C9, as the code behaves: [InputValue(name, typ)] raises
    [NameError: name 'none' is not defined] for every name and every
    TypeRef, so no InputValue is ever constructed. *)
Theorem InputValue_init_raises (name : value) (typ : option TypeRef.t) :
  InputValue.init name typ = Raise (NameError "none").
Proof. reflexivity. Qed.

(** What [InputValue.to_json] emits for an InputValue object, were there
    one: the entry ["defaultValue"] is null. *)
Lemma InputValue_to_json_defaultValue (a : InputValue.t) (j : value) :
  InputValue.to_json a = Ok j -> subscript j "defaultValue" = Ok VNone.
Proof.
  unfold InputValue.to_json. intros H.
  apply bind_Ok_inv in H as [ty [_ H]].
  injection H as <-. reflexivity.
Qed.

(** ** Schema: add_type *)

Lemma add_type_present (s : Schema.t) (name kind : string) :
  dict_mem name (Schema.types s) = true -> Schema.add_type s name kind = s.
Proof. unfold Schema.add_type. now intros ->. Qed.

Lemma add_type_mem (s : Schema.t) (name kind : string) :
  dict_mem name (Schema.types (Schema.add_type s name kind)) = true.
Proof.
  unfold Schema.add_type.
  destruct (dict_mem name (Schema.types s)) eqn:E; simpl.
  - exact E.
  - apply dict_mem_set_same.
Qed.

(** C4: a second [add_type] with the same name, whatever kind it passes,
    leaves the Schema as the first call left it; the Type stored under the
    name is the one that was there before the call, or the new one when
    there was none. *)
Theorem add_type_idempotent (s : Schema.t) (name kind1 kind2 : string) :
  Schema.add_type (Schema.add_type s name kind1) name kind2
    = Schema.add_type s name kind1
  /\ dict_get name (Schema.types (Schema.add_type s name kind2))
     = match dict_get name (Schema.types s) with
       | Some ty => Some ty
       | None => Some (Type_.init (VStr name) (VStr kind2) None)
       end.
Proof.
  split.
  - apply add_type_present, add_type_mem.
  - unfold Schema.add_type, dict_mem.
    destruct (dict_get name (Schema.types s)) as [ty|] eqn:E; simpl.
    + exact E.
    + apply dict_get_set_same.
Qed.

(** ** Schema: get_path_from_root and convert_path_to_document *)

Lemma scan_fields_no_producer (ty : Type_.t) (name : value) (path : list value) :
  forallb (fun f => negb (py_eq (TypeRef.name (Field.type f)) name))
          (Type_.fields ty) = true ->
  Schema.scan_fields ty (name, path) = (name, path).
Proof.
  unfold Schema.scan_fields.
  induction (Type_.fields ty) as [|f fs IH]; simpl; intros H.
  - reflexivity.
  - apply andb_prop in H as [Hf Hfs].
    apply negb_true_iff in Hf. rewrite Hf. now apply IH.
Qed.

Lemma scan_types_no_producer (s : Schema.t) (name : value) (path : list value) :
  no_producer s name = true ->
  Schema.scan_types s (name, path) = (name, path).
Proof.
  unfold no_producer, Schema.scan_types.
  induction (dict_values (Schema.types s)) as [|ty tys IH]; simpl; intros H.
  - reflexivity.
  - apply andb_prop in H as [Hty Htys].
    rewrite scan_fields_no_producer by exact Hty. now apply IH.
Qed.

(** The fuelled loop and the relation describe the same loop. *)
Lemma while_not_root_exits (s : Schema.t) (rs : list value) (fuel : nat) :
  forall st st',
    Schema.while_not_root fuel s rs st = Some st' ->
    Schema.while_exits s rs st st'.
Proof.
  induction fuel as [|fuel IH]; simpl; intros st st' H.
  - discriminate.
  - destruct (py_in (fst st) rs) eqn:E; simpl in H.
    + injection H as <-. now apply Schema.while_done.
    + apply Schema.while_again; [exact E | now apply IH].
Qed.

Lemma while_exits_fuel (s : Schema.t) (rs : list value) (st st' : Schema.search) :
  Schema.while_exits s rs st st' ->
  exists fuel, Schema.while_not_root fuel s rs st = Some st'.
Proof.
  induction 1 as [st E | st st' E _ [fuel IH]].
  - exists 1. simpl. now rewrite E.
  - exists (S fuel). simpl. now rewrite E.
Qed.

(** A target that is no root and that no field produces: the loop makes no
    progress. *)
Lemma while_not_root_diverges (s : Schema.t) (rs : list value)
    (name : value) (path : list value) :
  py_in name rs = false ->
  no_producer s name = true ->
  forall fuel, Schema.while_not_root fuel s rs (name, path) = None.
Proof.
  intros Hr Hp fuel. induction fuel as [|fuel IH]; simpl.
  - reflexivity.
  - rewrite Hr; simpl. rewrite scan_types_no_producer by exact Hp. exact IH.
Qed.

Lemma while_never_exits (s : Schema.t) (rs : list value)
    (name : value) (path : list value) :
  py_in name rs = false ->
  no_producer s name = true ->
  forall st', ~ Schema.while_exits s rs (name, path) st'.
Proof.
  intros Hr Hp st' H.
  apply while_exits_fuel in H as [fuel H].
  rewrite while_not_root_diverges in H by assumption. discriminate.
Qed.

Lemma get_path_from_root_diverges (s : Schema.t) (name : string) (rs : list value) :
  dict_mem name (Schema.types s) = true ->
  Schema.roots s = Ok rs ->
  py_in (VStr name) rs = false ->
  no_producer s (VStr name) = true ->
  forall fuel, Schema.get_path_from_root fuel s name = None.
Proof.
  intros Hm Hrs Hr Hp fuel. unfold Schema.get_path_from_root.
  rewrite Hm, Hrs; simpl.
  now rewrite while_not_root_diverges.
Qed.

(** C8, as the code behaves: in [Schema(queryType="Query")] the type
    [String] is present, is no root and is the type of no field;
    [get_path_from_root("String")] never leaves its [while] loop, whatever
    the number of turns, and so raises nothing. *)
Theorem unreachable_target_never_returns :
  let s := Schema.init (Some "Query") None None in
  dict_mem "String" (Schema.types s) = true
  /\ Schema.roots s = Ok [VStr "Query"]
  /\ (forall fuel, Schema.get_path_from_root fuel s "String" = None)
  /\ (forall st',
        ~ Schema.while_exits s [VStr "Query"] (VStr "String", []) st').
Proof.
  intros s. repeat split.
  - intros fuel.
    apply (@get_path_from_root_diverges s "String" [VStr "Query"]);
      reflexivity.
  - intros st'. apply while_never_exits; reflexivity.
Qed.

(** C2, amended: in the Schema with root [Query], [Query.a : TypeA] and
    [TypeA.b : TypeB] in which [TypeB] is registered as well, the path to
    [TypeB] is [Query, a, b] as soon as the loop is given its three turns,
    and the document of that path is [query { a { b { FUZZ } } }]. *)
Theorem path_and_document_of_TypeB :
  exists s,
    sample_schema = Ok s
    /\ dict_mem "TypeB" (Schema.types s) = true
    /\ (forall fuel,
          Schema.get_path_from_root (3 + fuel) s "TypeB"
            = Some (Ok (map VStr ["Query"; "a"; "b"])))
    /\ Schema.while_exits s [VStr "Query"] (VStr "TypeB", [])
         (VStr "Query", map VStr ["a"; "b"])
    /\ fst (Schema.convert_path_to_document s ["Query"; "a"; "b"])
       = Ok "query { a { b { FUZZ } } }".
Proof.
  eexists. split; [reflexivity|]. split; [reflexivity|]. split; [|split].
  - intros fuel. reflexivity.
  - apply (@while_not_root_exits _ _ 3). reflexivity.
  - reflexivity.
Qed.

(** C2, as stated, fails: in the Schema with root [Query] that holds the
    types [Query], with [a : TypeA], and [TypeA], with [b : TypeB], and in
    which [TypeB] is only the type of a field, the search does not start:
    the call raises because [TypeB] is no key of [types]. *)
Lemma path_to_unregistered_type_raises :
  exists s,
    sample_schema_without_TypeB = Ok s
    /\ map fst (Schema.types s) = ["String"; "ID"; "Query"; "TypeA"]
    /\ Schema.roots s = Ok [VStr "Query"]
    /\ forall fuel,
         Schema.get_path_from_root fuel s "TypeB"
           = Some (Raise (Exception "Type 'TypeB' not in schema!")).
Proof.
  eexists. split; [reflexivity|]. split; [reflexivity|].
  split; [reflexivity|]. intros fuel. reflexivity.
Qed.

(** ** Serialization of the entities *)

Lemma TypeRef_to_json_total (r : TypeRef.t) :
  TypeRef_serializable r = true -> exists j, TypeRef.to_json r = Ok j.
Proof.
  unfold TypeRef_serializable, TypeRef.to_json. intros H.
  apply negb_true_iff in H. rewrite H. eexists. reflexivity.
Qed.

Lemma InputValue_to_json_total (a : InputValue.t) :
  InputValue_serializable a = true -> exists j, InputValue.to_json a = Ok j.
Proof.
  intros H. destruct (TypeRef_to_json_total _ H) as [ty Hty].
  unfold InputValue.to_json. rewrite Hty. eexists. reflexivity.
Qed.

Lemma Field_to_json_total (f : Field.t) :
  Field_serializable f = true -> exists j, Field.to_json f = Ok j.
Proof.
  unfold Field_serializable. intros H. apply andb_prop in H as [Ha Ht].
  destruct (TypeRef_to_json_total _ Ht) as [ty Hty].
  destruct (@mapM_total _ _ InputValue.to_json (Field.args f)) as [js [Hjs _]].
  { rewrite forallb_forall in Ha. apply Forall_forall. intros a Hin.
    apply InputValue_to_json_total, Ha, Hin. }
  unfold Field.to_json. rewrite Hjs, Hty. eexists. reflexivity.
Qed.

Lemma fields_to_json_total (fs : list Field.t) :
  forallb Field_serializable fs = true ->
  exists js, mapM Field.to_json fs = Ok js
             /\ Forall2 (fun f j => Field.to_json f = Ok j) fs js.
Proof.
  intros H. apply mapM_total. rewrite forallb_forall in H.
  apply Forall_forall. intros f Hin. apply Field_to_json_total, H, Hin.
Qed.

Lemma inject_dummy_kind (ty : Type_.t) :
  Type_.kind (Type_.inject_dummy ty) = Type_.kind ty.
Proof. unfold Type_.inject_dummy. now destruct (Type_.fields ty). Qed.

Lemma inject_dummy_idempotent (ty : Type_.t) :
  Type_.inject_dummy (Type_.inject_dummy ty) = Type_.inject_dummy ty.
Proof. destruct ty as [n k [|f fs]]; reflexivity. Qed.

Lemma inject_dummy_serializable (ty : Type_.t) :
  Type_serializable ty = true ->
  Type_serializable (Type_.inject_dummy ty) = true.
Proof.
  unfold Type_serializable, Type_.inject_dummy.
  destruct (Type_.fields ty) eqn:E; simpl; intros H.
  - reflexivity.
  - now rewrite E.
Qed.

Lemma to_json_receiver (ty : Type_.t) :
  snd (Type_.to_json ty) = Type_.inject_dummy ty.
Proof.
  unfold Type_.to_json.
  destruct (py_in _ _); [reflexivity|].
  destruct (py_eq _ _); reflexivity.
Qed.

(** A call on a receiver that already went through [to_json] behaves as the
    first call did. *)
Lemma to_json_of_injected (ty : Type_.t) :
  Type_.to_json (Type_.inject_dummy ty) = Type_.to_json ty.
Proof. unfold Type_.to_json. now rewrite inject_dummy_idempotent. Qed.

Lemma after_to_json_S (n : nat) (ty : Type_.t) :
  after_to_json (S n) ty = Type_.inject_dummy ty.
Proof.
  induction n as [|n IH].
  - apply to_json_receiver.
  - change (after_to_json (S (S n)) ty)
      with (snd (Type_.to_json (after_to_json (S n) ty))).
    rewrite IH, to_json_receiver. apply inject_dummy_idempotent.
Qed.

Lemma to_json_after (n : nat) (ty : Type_.t) :
  fst (Type_.to_json (after_to_json n ty)) = fst (Type_.to_json ty).
Proof.
  destruct n as [|n]; [reflexivity|].
  now rewrite after_to_json_S, to_json_of_injected.
Qed.

Lemma Type_to_json_total (ty : Type_.t) :
  Type_serializable ty = true ->
  exists w, Type_.to_json ty = (Ok w, Type_.inject_dummy ty).
Proof.
  intros H. apply inject_dummy_serializable in H.
  destruct (fields_to_json_total _ H) as [js [Hjs _]].
  unfold Type_.to_json. rewrite Hjs.
  destruct (py_in _ _); [eexists; reflexivity|].
  destruct (py_eq _ _); eexists; reflexivity.
Qed.

(** [from_json] passes over a wire field called ["dummy"]. *)
Lemma from_json_fields_skips_dummy (fuel : nat) (f : value) (items : list value) :
  subscript f "name" = Ok (VStr "dummy") ->
  Type_.from_json_fields fuel (f :: items) = Type_.from_json_fields fuel items.
Proof. intros H. simpl. now rewrite H. Qed.

Lemma dummy_wire_name :
  exists j, Field.to_json Type_.dummy = Ok j
            /\ subscript j "name" = Ok (VStr "dummy").
Proof. eexists. split; reflexivity. Qed.

(** Serializing a Type without fields and reading the wire object back. *)
Lemma empty_type_round_trip (ty : Type_.t) :
  Type_.fields ty = [] ->
  exists w, fst (Type_.to_json ty) = Ok w
            /\ forall fuel, Type_.from_json fuel w = Some (Ok ty).
Proof.
  destruct ty as [n k fs]; simpl; intros ->.
  unfold Type_.to_json, Type_.inject_dummy, py_in; cbn.
  destruct (py_eq k (VStr "OBJECT")) eqn:EO; cbn;
    [|destruct (py_eq k (VStr "INTERFACE")) eqn:EI; cbn;
      [|destruct (py_eq k (VStr "INPUT_OBJECT")) eqn:EIO; cbn]];
    (eexists; split; [reflexivity|]);
    intros fuel; unfold Type_.from_json, py_in; cbn;
    rewrite ?EO, ?EI, ?EIO; cbn; reflexivity.
Qed.

(** C3: for a Type without fields, every call of [to_json] returns the
    same wire object, after one call or more the field list is exactly the
    one placeholder called ["dummy"], [from_json] passes over any wire
    field of that name, and reading the wire object back gives the Type
    with its empty field list. *)
Theorem dummy_placeholder_policy (ty : Type_.t) :
  Type_.fields ty = [] ->
  exists w,
    (forall n, fst (Type_.to_json (after_to_json n ty)) = Ok w)
    /\ (forall n, Type_.fields (after_to_json (S n) ty) = [Type_.dummy])
    /\ Field.name Type_.dummy = VStr "dummy"
    /\ (forall fuel f items,
          subscript f "name" = Ok (VStr "dummy") ->
          Type_.from_json_fields fuel (f :: items)
            = Type_.from_json_fields fuel items)
    /\ (forall fuel, Type_.from_json fuel w = Some (Ok ty)).
Proof.
  intros Hty. destruct (empty_type_round_trip ty Hty) as [w [Hw Hback]].
  exists w. repeat split.
  - intros n. now rewrite to_json_after.
  - intros n. rewrite after_to_json_S. unfold Type_.inject_dummy.
    now rewrite Hty.
  - exact from_json_fields_skips_dummy.
  - exact Hback.
Qed.

Lemma dummy_placeholder_policy_witness :
  exists w,
    (forall n, fst (Type_.to_json
                      (after_to_json n (Type_.init (VStr "Query") (VStr "OBJECT") None)))
               = Ok w)
    /\ (forall fuel, Type_.from_json fuel w
                     = Some (Ok (Type_.init (VStr "Query") (VStr "OBJECT") None))).
Proof.
  destruct (@dummy_placeholder_policy
              (Type_.init (VStr "Query") (VStr "OBJECT") None))
    as [w [H1 [_ [_ [_ H5]]]]].
  - reflexivity.
  - exists w. split; assumption.
Defined.

(** C7, amended: the wire object of a Type whose fields can be serialized
    holds, for kind OBJECT or INTERFACE, the serialized fields under
    ["fields"] and null under ["inputFields"]; for kind INPUT_OBJECT, null
    under ["fields"] and the serialized fields under ["inputFields"]; for
    any other kind, neither key. *)
Theorem Type_to_json_dispatch (ty : Type_.t) :
  Type_serializable ty = true ->
  exists out js,
    fst (Type_.to_json ty) = Ok (VDict out)
    /\ Forall2 (fun f j => Field.to_json f = Ok j)
               (Type_.fields (snd (Type_.to_json ty))) js
    /\ if py_in (Type_.kind ty) [VStr "OBJECT"; VStr "INTERFACE"] then
         dict_get "fields" out = Some (VList js)
         /\ dict_get "inputFields" out = Some VNone
       else if py_eq (Type_.kind ty) (VStr "INPUT_OBJECT") then
         dict_get "fields" out = Some VNone
         /\ dict_get "inputFields" out = Some (VList js)
       else
         dict_get "fields" out = None
         /\ dict_get "inputFields" out = None.
Proof.
  intros H. apply inject_dummy_serializable in H.
  destruct (fields_to_json_total _ H) as [js [Hjs HF]].
  rewrite to_json_receiver.
  unfold Type_.to_json. rewrite Hjs, inject_dummy_kind.
  destruct (py_in _ _).
  - do 2 eexists. split; [reflexivity|]. split; [exact HF|].
    split; reflexivity.
  - destruct (py_eq _ _).
    + do 2 eexists. split; [reflexivity|]. split; [exact HF|].
      split; reflexivity.
    + do 2 eexists. split; [reflexivity|]. split; [exact HF|].
      split; reflexivity.
Qed.

Lemma Type_to_json_dispatch_witness :
  let ty := Type_.init (VStr "Query") (VStr "OBJECT")
                       (Some [object_field "a" "TypeA"]) in
  exists out js,
    fst (Type_.to_json ty) = Ok (VDict out)
    /\ dict_get "fields" out = Some (VList js)
    /\ dict_get "inputFields" out = Some VNone.
Proof.
  intros ty.
  destruct (@Type_to_json_dispatch ty) as [out [js [H1 [_ H3]]]].
  - reflexivity.
  - exists out, js. simpl in H3. destruct H3 as [H3 H4].
    split; [exact H1 | split; [exact H3 | exact H4]].
Defined.

(** C7, as stated, fails: the wire object of the SCALAR type [String] has
    no entry ["fields"] and no entry ["inputFields"], so neither key holds
    null. *)
Lemma scalar_wire_object_lacks_field_keys :
  exists out,
    fst (Type_.to_json (Type_.init (VStr "String") (VStr "SCALAR") None))
      = Ok (VDict out)
    /\ dict_mem "fields" out = false
    /\ dict_mem "inputFields" out = false
    /\ subscript (VDict out) "fields" = Raise (KeyError "fields")
    /\ ~ (dict_get "fields" out = Some VNone
          /\ dict_get "inputFields" out = Some VNone).
Proof.
  eexists. repeat split. intros [H _]. discriminate H.
Qed.

(** ** Schema: to_json *)

Lemma wires_exist (ts : list (string * Type_.t)) :
  forallb (fun kt => Type_serializable (snd kt)) ts = true ->
  exists ws, Forall2 wire_of ts ws.
Proof.
  induction ts as [|[k ty] ts IH]; simpl; intros H.
  - exists []. constructor.
  - apply andb_prop in H as [Hty Hts].
    destruct (Type_to_json_total _ Hty) as [w Hw].
    destruct (IH Hts) as [ws Hws].
    exists (w :: ws). constructor; [|exact Hws].
    unfold wire_of; simpl. now rewrite Hw.
Qed.

Lemma wires_of_settled (ts : list (string * Type_.t)) (ws : list value) :
  Forall2 wire_of ts ws -> Forall2 wire_of (settled ts) ws.
Proof.
  induction 1 as [|[k ty] w ts ws Hw _ IH]; simpl; constructor.
  - unfold wire_of in *; simpl in *. now rewrite to_json_of_injected.
  - exact IH.
Qed.

Lemma settled_idempotent (ts : list (string * Type_.t)) :
  settled (settled ts) = settled ts.
Proof.
  unfold settled. rewrite map_map. apply map_ext. intros [k ty]; simpl.
  now rewrite inject_dummy_idempotent.
Qed.

Lemma to_json_loop_returns (ts : list (string * Type_.t)) (ws : list value) :
  Forall2 wire_of ts ws ->
  Schema.to_json_loop ts = (ws, Ok tt, settled ts).
Proof.
  induction 1 as [|[k ty] w ts ws Hw _ IH]; simpl.
  - reflexivity.
  - unfold wire_of in Hw; simpl in Hw.
    pose proof (to_json_receiver ty) as Hs.
    destruct (Type_.to_json ty) as [r ty']; simpl in *; subst.
    now rewrite IH.
Qed.

(** C10, amended: [to_json] appends to [self._schema["types"]].  For a
    Schema that has at least one Type, was not serialized before and whose
    fields can all be serialized, the first call returns a document with the wire
    objects [ws] of its Types and leaves [ws] in the Schema; the second
    call returns a document whose types array is [ws] followed by [ws].
    The first call changes the Schema and the two calls return different
    documents. *)
Theorem Schema_to_json_appends_again (s : Schema.t) :
  SchemaDict.types (Schema._schema s) = [] ->
  0 < length (Schema.types s) ->
  forallb (fun kt => Type_serializable (snd kt)) (Schema.types s) = true ->
  exists ws s1 s2,
    Forall2 wire_of (Schema.types s) ws
    /\ Schema.to_json s = (Ok (Schema.document (Schema._schema s1)), s1)
    /\ SchemaDict.types (Schema._schema s1) = ws
    /\ Schema.to_json s1 = (Ok (Schema.document (Schema._schema s2)), s2)
    /\ SchemaDict.types (Schema._schema s2) = (ws ++ ws)%list
    /\ s1 <> s
    /\ fst (Schema.to_json s1) <> fst (Schema.to_json s).
Proof.
  intros Hfresh Hlen Hser.
  destruct (wires_exist _ Hser) as [ws Hws].
  pose proof (to_json_loop_returns Hws) as L1.
  pose proof (to_json_loop_returns (wires_of_settled Hws)) as L2.
  rewrite settled_idempotent in L2.
  assert (Hne : length ws <> 0).
  { rewrite <- (Forall2_length Hws). lia. }
  destruct s as [d ts]; simpl in *.
  set (with_types := fun l =>
         {| Schema._schema :=
              {| SchemaDict.directives := SchemaDict.directives d;
                 SchemaDict.mutationType := SchemaDict.mutationType d;
                 SchemaDict.queryType := SchemaDict.queryType d;
                 SchemaDict.subscriptionType := SchemaDict.subscriptionType d;
                 SchemaDict.types := l |};
            Schema.types := settled ts |}).
  assert (C1 : Schema.to_json {| Schema._schema := d; Schema.types := ts |}
               = (Ok (Schema.document (Schema._schema (with_types ws))),
                  with_types ws)).
  { unfold Schema.to_json; simpl. rewrite L1, Hfresh. reflexivity. }
  assert (C2 : Schema.to_json (with_types ws)
               = (Ok (Schema.document
                        (Schema._schema (with_types (ws ++ ws)%list))),
                  with_types (ws ++ ws)%list)).
  { unfold Schema.to_json; simpl. rewrite L2. reflexivity. }
  exists ws, (with_types ws), (with_types (ws ++ ws)%list).
  split; [exact Hws|]. split; [exact C1|]. split; [reflexivity|].
  split; [exact C2|]. split; [reflexivity|]. split.
  - intros E. apply (f_equal (fun x => SchemaDict.types (Schema._schema x))) in E.
    simpl in E. rewrite Hfresh in E. subst ws. now apply Hne.
  - rewrite C1, C2; simpl. intros E. injection E as E.
    apply (f_equal (@length value)) in E. rewrite length_app in E. lia.
Qed.

Lemma Schema_to_json_appends_again_witness :
  let s := Schema.init (Some "Query") None None in
  exists ws s1 s2,
    length ws = 3
    /\ Schema.to_json s = (Ok (Schema.document (Schema._schema s1)), s1)
    /\ Schema.to_json s1 = (Ok (Schema.document (Schema._schema s2)), s2)
    /\ SchemaDict.types (Schema._schema s2) = (ws ++ ws)%list.
Proof.
  intros s.
  destruct (@Schema_to_json_appends_again s)
    as [ws [s1 [s2 [H1 [H2 [_ [H4 [H5 _]]]]]]]].
  - reflexivity.
  - simpl. lia.
  - reflexivity.
  - exists ws, s1, s2. split; [|split; [exact H2 | split; [exact H4 | exact H5]]].
    symmetry. exact (Forall2_length H1).
Defined.

(** C10, as stated, fails: the Schema [flagged_schema] has Types and was
    never serialized, yet its first and its second call of [to_json] both
    raise [AttributeError] and return no document. *)
Lemma flagged_schema_returns_no_document :
  exists s,
    flagged_schema = Ok s
    /\ 0 < length (Schema.types s)
    /\ SchemaDict.types (Schema._schema s) = []
    /\ fst (Schema.to_json s) = Raise (AttributeError "ofType")
    /\ fst (Schema.to_json (snd (Schema.to_json s)))
       = Raise (AttributeError "ofType").
Proof.
  eexists. split; [reflexivity|]. split; [simpl; lia|].
  repeat split.
Qed.

(** * Further properties of the module *)

(** ** TypeRef codec *)

Ltac decode_cases H :=
  repeat match type of H with
    | context [bind ?r _] => destruct r eqn:?; simpl in H
    | context [if ?b then _ else _] => destruct b eqn:?; simpl in H
    end.

(** Every reference the decoder returns has [is_list_item_nullable] and
    [is_input_object] unset (the branch for INPUT_OBJECT is never taken),
    so [to_json] returns on it. *)
Theorem decoded_reference_flags (jso : value) (r : TypeRef.t) :
  field_or_arg_type_from_json jso = Ok (Some r) ->
  TypeRef.is_input_object r = false
  /\ TypeRef.is_list_item_nullable r = false
  /\ exists j, TypeRef.to_json r = Ok j.
Proof.
  intros H.
  assert (G : TypeRef.is_input_object r = false
              /\ TypeRef.is_list_item_nullable r = false).
  { unfold field_or_arg_type_from_json, is_wrapper_kind, py_in in H.
    simpl in H. decode_cases H; try discriminate;
      injection H as <-; split; reflexivity. }
  destruct G as [G1 G2]. repeat split; try assumption.
  apply TypeRef_to_json_total. unfold TypeRef_serializable. now rewrite G1.
Qed.

Lemma decoded_reference_flags_witness :
  let r := TypeRef.init (VStr "String") (VStr "SCALAR") true false true false in
  TypeRef.is_input_object r = false
  /\ TypeRef.is_list_item_nullable r = false
  /\ exists j, TypeRef.to_json r = Ok j.
Proof.
  apply (@decoded_reference_flags
           (TypeRef.node (VStr "LIST") VNone
              (TypeRef.node (VStr "NON_NULL") VNone
                 (TypeRef.node (VStr "SCALAR") (VStr "String") VNone)))).
  reflexivity.
Defined.

(** Decoding what [to_json] wrote never raises when the base kind is not
    itself NON_NULL or LIST.  The result is [None] when the reference is
    non-null and exactly one of its list and non-null-item flags is set;
    otherwise it has the name, the kind and the list flag of the original,
    non-nullable items, and is nullable only if neither the non-null flag
    nor a non-null item outside a list was written. *)
Theorem decode_of_encoded (r : TypeRef.t) :
  TypeRef.is_input_object r = false ->
  is_wrapper_kind (TypeRef.kind r) = false ->
  (j <- TypeRef.to_json r ;; field_or_arg_type_from_json j)
    = Ok (if TypeRef.non_null r
             && xorb (TypeRef.list_ r) (TypeRef.non_null_item r)
          then None
          else Some (TypeRef.init (TypeRef.name r) (TypeRef.kind r)
                       (TypeRef.list_ r) false
                       (negb (TypeRef.non_null r
                              || (TypeRef.non_null_item r
                                  && negb (TypeRef.list_ r))))
                       false)).
Proof.
  destruct r as [n k l i nn io nnf lf nif]; simpl. intros -> Hk.
  unfold TypeRef.to_json; simpl.
  destruct nif, lf, nnf; simpl; try reflexivity.
  unfold field_or_arg_type_from_json; simpl. rewrite Hk; simpl.
  reflexivity.
Qed.

Lemma decode_of_encoded_witness :
  (j <- TypeRef.to_json
          (TypeRef.init (VStr "ID") (VStr "SCALAR") true true false false) ;;
   field_or_arg_type_from_json j) = Ok None.
Proof.
  apply (@decode_of_encoded
           (TypeRef.init (VStr "ID") (VStr "SCALAR") true true false false));
    reflexivity.
Defined.

(** ** Serialization of fields *)

Lemma TypeRef_to_json_flagged (r : TypeRef.t) :
  TypeRef_serializable r = false ->
  TypeRef.to_json r = Raise (AttributeError "ofType").
Proof.
  unfold TypeRef_serializable, TypeRef.to_json. intros H.
  apply negb_false_iff in H. now rewrite H.
Qed.

Lemma InputValue_to_json_flagged (a : InputValue.t) :
  InputValue_serializable a = false ->
  InputValue.to_json a = Raise (AttributeError "ofType").
Proof.
  intros H. unfold InputValue.to_json.
  now rewrite (TypeRef_to_json_flagged _ H).
Qed.

Lemma args_to_json_flagged (args : list InputValue.t) :
  forallb InputValue_serializable args = false ->
  mapM InputValue.to_json args = Raise (AttributeError "ofType").
Proof.
  induction args as [|a args IH]; simpl; [discriminate|]. intros H.
  destruct (InputValue_serializable a) eqn:Ea; simpl in H.
  - destruct (InputValue_to_json_total _ Ea) as [j ->]. simpl.
    now rewrite (IH H).
  - now rewrite (InputValue_to_json_flagged _ Ea).
Qed.

(** [Field.to_json] returns a wire object when neither the type of the
    field nor the type of one of its arguments is flagged as an input
    object, and raises [AttributeError] for [ofType] otherwise. *)
Theorem Field_to_json_returns_or_raises (f : Field.t) :
  if Field_serializable f
  then exists j, Field.to_json f = Ok j
  else Field.to_json f = Raise (AttributeError "ofType").
Proof.
  destruct (Field_serializable f) eqn:E.
  - now apply Field_to_json_total.
  - unfold Field_serializable in E. unfold Field.to_json.
    destruct (forallb InputValue_serializable (Field.args f)) eqn:Ea;
      simpl in E.
    + destruct (@mapM_total _ _ InputValue.to_json (Field.args f))
        as [js [-> _]].
      { rewrite forallb_forall in Ea. apply Forall_forall. intros a Hin.
        apply InputValue_to_json_total, Ea, Hin. }
      simpl. now rewrite (TypeRef_to_json_flagged _ E).
    + now rewrite (args_to_json_flagged _ Ea).
Qed.

(** ** Field.from_json, InputValue.from_json, Type.from_json *)

Lemma Field_from_json_S (fuel : nat) (jso : value) :
  Field_from_json (S fuel) jso
  = match (name <- subscript jso "name" ;;
           ty <- subscript jso "type" ;;
           typ <- field_or_arg_type_from_json ty ;;
           a <- subscript jso "args" ;;
           items <- py_iter a ;;
           Ok (name, typ, items)) with
    | Raise e => Some (Raise e)
    | Ok (name, typ, items) =>
        match mapF (InputValue_from_json fuel) items with
        | None => None
        | Some (Raise e) => Some (Raise e)
        | Some (Ok args) => Some (Ok (Field.init name typ (Some args)))
        end
    end.
Proof. reflexivity. Qed.

Lemma InputValue_from_json_S (fuel : nat) (jso : value) :
  InputValue_from_json (S fuel) jso
  = match (name <- subscript jso "name" ;;
           ty <- subscript jso "type" ;;
           typ <- field_or_arg_type_from_json ty ;;
           fs <- subscript jso "input_fields" ;;
           items <- py_iter fs ;;
           Ok (name, typ, items)) with
    | Raise e => Some (Raise e)
    | Ok (name, typ, items) =>
        match mapF (Field_from_json fuel) items with
        | None => None
        | Some (Raise e) => Some (Raise e)
        | Some (Ok input_fields) => Some (InputValue.init name typ)
        end
    end.
Proof. reflexivity. Qed.

Lemma depth_dict_get (k : string) (d : list (string * value)) (x : value) :
  dict_get k d = Some x -> depth x < depth (VDict d).
Proof.
  induction d as [|[k' v] d IH]; simpl; intros H; [discriminate|].
  destruct (String.eqb k' k).
  - injection H as ->. lia.
  - apply IH in H. simpl in H. lia.
Qed.

Lemma depth_In (x : value) (l : list value) :
  In x l -> depth x < depth (VList l).
Proof.
  induction l as [|y l IH]; simpl; intros H; [contradiction|].
  destruct H as [->|H].
  - lia.
  - apply IH in H. simpl in H. lia.
Qed.

Lemma depth_subscript (v x : value) (k : string) :
  subscript v k = Ok x -> depth x < depth v.
Proof.
  destruct v as [| | | | |d]; simpl; try discriminate.
  destruct (dict_get k d) eqn:E; [|discriminate].
  intros H; injection H as <-. now apply depth_dict_get in E.
Qed.

Lemma depth_chars (s : string) : Forall (fun x => depth x = 0) (chars s).
Proof. induction s; simpl; constructor; auto. Qed.

Lemma depth_py_iter (v : value) (items : list value) :
  py_iter v = Ok items -> Forall (fun x => depth x <= depth v) items.
Proof.
  destruct v as [| | |s|l|d]; simpl; try discriminate;
    intros H; injection H as <-.
  - eapply Forall_impl; [|apply depth_chars]. simpl. intros x ->. lia.
  - apply Forall_forall. intros x Hin. apply depth_In in Hin. simpl in Hin. lia.
  - apply Forall_forall. intros x Hin. apply in_map_iff in Hin as [kv [<- _]].
    simpl. lia.
Qed.

Lemma mapF_not_None {A B} (f : A -> option (result B)) (xs : list A) :
  Forall (fun x => f x <> None) xs -> mapF f xs <> None.
Proof.
  induction 1 as [|x xs Hx _ IH]; simpl; [discriminate|].
  destruct (f x) as [[y|e]|]; [|discriminate|contradiction].
  destruct (mapF f xs) as [[ys|e]|]; [discriminate|discriminate|contradiction].
Qed.

(** The items a decoder loops over are less deep than its argument. *)
Lemma items_below (jso a : value) (k : string) (items : list value) (fuel : nat) :
  depth jso < S fuel ->
  subscript jso k = Ok a ->
  py_iter a = Ok items ->
  Forall (fun x => depth x < fuel) items.
Proof.
  intros Hd Ha Hi. apply depth_subscript in Ha. apply depth_py_iter in Hi.
  eapply Forall_impl; [|exact Hi]. simpl. intros x Hx. lia.
Qed.

Ltac prelude_cases :=
  repeat match goal with
    | |- context [bind ?r _] =>
        let E := fresh "E" in destruct r eqn:E; simpl; try discriminate
    end.

Ltac loop_items jso Hd F :=
  match goal with
  | Ha : subscript jso _ = Ok ?a, Hi : py_iter ?a = Ok _ |- _ =>
      pose proof (@items_below _ _ _ _ _ Hd Ha Hi) as F
  end.

(** Both decoders come to an end once the fuel exceeds the depth of the
    wire value. *)
Lemma from_json_terminates (fuel : nat) :
  forall jso, depth jso < fuel ->
    Field_from_json fuel jso <> None /\ InputValue_from_json fuel jso <> None.
Proof.
  induction fuel as [|fuel IH]; intros jso Hd; [lia|].
  rewrite Field_from_json_S, InputValue_from_json_S. split.
  - prelude_cases. loop_items jso Hd F.
    destruct (mapF _ _) as [[ys|e]|] eqn:M; [discriminate|discriminate|].
    exfalso. revert M. apply mapF_not_None.
    eapply Forall_impl; [|exact F]. simpl. intros x Hx. now apply IH.
  - prelude_cases. loop_items jso Hd F.
    destruct (mapF _ _) as [[ys|e]|] eqn:M; [discriminate|discriminate|].
    exfalso. revert M. apply mapF_not_None.
    eapply Forall_impl; [|exact F]. simpl. intros x Hx. now apply IH.
Qed.

Lemma InputValue_from_json_never_Ok (fuel : nat) (jso : value) (a : InputValue.t) :
  InputValue_from_json fuel jso <> Some (Ok a).
Proof.
  destruct fuel as [|fuel]; [discriminate|].
  rewrite InputValue_from_json_S.
  prelude_cases.
  destruct (mapF _ _) as [[ys|e]|]; discriminate.
Qed.

Lemma InputValue_decoder_raises (fuel : nat) (jso : value) :
  depth jso < fuel ->
  exists e, InputValue_from_json fuel jso = Some (Raise e).
Proof.
  intros Hd. destruct (@from_json_terminates _ _ Hd) as [_ HN].
  pose proof (@InputValue_from_json_never_Ok fuel jso) as HO.
  destruct (InputValue_from_json fuel jso) as [[a|e]|].
  - exfalso. now apply (HO a).
  - now exists e.
  - contradiction.
Qed.

(** [InputValue.from_json] comes to an end on every wire value and never
    returns an InputValue: it raises, at the latest in the constructor. *)
Theorem InputValue_from_json_raises (fuel : nat) (jso : value) :
  depth jso < fuel ->
  exists e, InputValue_from_json fuel jso = Some (Raise e).
Proof. exact (@InputValue_decoder_raises fuel jso). Qed.

Lemma InputValue_from_json_raises_witness :
  exists e,
    InputValue_from_json 3
      (VDict [("name", VStr "id");
              ("type", TypeRef.node (VStr "SCALAR") (VStr "ID") VNone);
              ("input_fields", VList [])])
    = Some (Raise e).
Proof.
  apply (@InputValue_from_json_raises 3). simpl. lia.
Defined.

(** [Field.from_json] comes to an end on every wire value. *)
Lemma Field_from_json_terminates (fuel : nat) (jso : value) :
  depth jso < fuel -> exists r, Field_from_json fuel jso = Some r.
Proof.
  intros Hd. destruct (@from_json_terminates _ _ Hd) as [HN _].
  destruct (Field_from_json fuel jso) as [r|]; [now exists r | contradiction].
Qed.

(** A wire field whose ["args"] holds at least one item cannot be read:
    [Field.from_json] raises, because reading the first argument does. *)
Theorem Field_from_json_with_args_raises
    (fuel : nat) (jso a x : value) (rest : list value) :
  depth jso < fuel ->
  subscript jso "args" = Ok a ->
  py_iter a = Ok (x :: rest) ->
  exists e, Field_from_json fuel jso = Some (Raise e).
Proof.
  intros Hd Ha Hi. destruct fuel as [|fuel]; [lia|].
  rewrite Field_from_json_S. rewrite Ha.
  destruct (subscript jso "name") as [n|e]; simpl; [|eexists; reflexivity].
  destruct (subscript jso "type") as [ty|e]; simpl; [|eexists; reflexivity].
  destruct (field_or_arg_type_from_json ty) as [typ|e]; simpl;
    [|eexists; reflexivity].
  rewrite Hi; simpl.
  pose proof (@items_below _ _ _ _ _ Hd Ha Hi) as F. inversion F as [|? ? Hx _]; subst.
  destruct (@InputValue_decoder_raises _ _ Hx) as [e ->].
  eexists. reflexivity.
Qed.

Lemma Field_from_json_with_args_raises_witness :
  exists e,
    Field_from_json 5
      (VDict [("name", VStr "user");
              ("type", TypeRef.node (VStr "OBJECT") (VStr "User") VNone);
              ("args",
               VList [VDict [("name", VStr "id");
                             ("type", TypeRef.node (VStr "SCALAR") (VStr "ID") VNone);
                             ("input_fields", VList [])]])])
    = Some (Raise e).
Proof.
  eapply (@Field_from_json_with_args_raises 5); [simpl; lia | | ]; reflexivity.
Defined.

Lemma plain_field_read_back (f : Field.t) :
  plain_list_field f ->
  exists j,
    Field.to_json f = Ok j
    /\ subscript j "name" = Ok (Field.name f)
    /\ forall fuel, Field_from_json (S fuel) j = Some (Ok f).
Proof.
  destruct f as [n ty args]. intros [Ha [tn [k [nn Ht]]]].
  simpl in Ha, Ht. subst.
  destruct nn; eexists; (split; [reflexivity|]); (split; [reflexivity|]);
    intros fuel; rewrite Field_from_json_S; reflexivity.
Qed.

(** A field without arguments whose type is a list with non-nullable
    items is read back from its wire object as it was. *)
Theorem Field_round_trip (f : Field.t) :
  plain_list_field f ->
  exists j,
    Field.to_json f = Ok j
    /\ subscript j "name" = Ok (Field.name f)
    /\ forall fuel, Field_from_json (S fuel) j = Some (Ok f).
Proof. exact (@plain_field_read_back f). Qed.

Lemma Field_round_trip_witness :
  let f := Field.init (VStr "tags")
             (Some (TypeRef.init (VStr "String") (VStr "SCALAR")
                      true false false false)) None in
  exists j, Field.to_json f = Ok j
            /\ forall fuel, Field_from_json (S fuel) j = Some (Ok f).
Proof.
  intros f. destruct (@Field_round_trip f) as [j [H1 [_ H3]]].
  - split; [reflexivity|]. exists "String", "SCALAR", false. reflexivity.
  - exists j. split; assumption.
Defined.

Lemma Field_from_json_name (fuel : nat) (jso : value) (fld : Field.t) :
  Field_from_json fuel jso = Some (Ok fld) ->
  subscript jso "name" = Ok (Field.name fld).
Proof.
  destruct fuel as [|fuel]; [discriminate|].
  rewrite Field_from_json_S.
  destruct (subscript jso "name") as [n|e]; simpl; [|discriminate].
  destruct (subscript jso "type") as [ty|e]; simpl; [|discriminate].
  destruct (field_or_arg_type_from_json ty) as [typ|e]; simpl; [|discriminate].
  destruct (subscript jso "args") as [a|e]; simpl; [|discriminate].
  destruct (py_iter a) as [items|e]; simpl; [|discriminate].
  destruct (mapF _ _) as [[args|e]|]; try discriminate.
  intros H; injection H as <-. reflexivity.
Qed.

Lemma from_json_fields_never_dummy (fuel : nat) (items : list value) :
  forall fields,
    Type_.from_json_fields fuel items = Some (Ok fields) ->
    Forall (fun f => py_eq (Field.name f) (VStr "dummy") = false) fields.
Proof.
  induction items as [|x items IH]; simpl; intros fields H.
  - injection H as <-. constructor.
  - destruct (subscript x "name") as [n|e] eqn:En; [|discriminate].
    destruct (py_eq n (VStr "dummy")) eqn:Ed; [now apply IH|].
    destruct (Field_from_json fuel x) as [[fld|e]|] eqn:Ef; try discriminate.
    destruct (Type_.from_json_fields fuel items) as [[flds|e]|];
      try discriminate.
    injection H as <-. constructor; [|now apply IH].
    apply Field_from_json_name in Ef. rewrite En in Ef.
    injection Ef as <-. exact Ed.
Qed.

(** No Type that [Type.from_json] returns has a field called ["dummy"]:
    a real field of that name on the wire is dropped like the
    placeholder. *)
Theorem from_json_never_dummy (fuel : nat) (jso : value) (ty : Type_.t) :
  Type_.from_json fuel jso = Some (Ok ty) ->
  Forall (fun f => py_eq (Field.name f) (VStr "dummy") = false)
         (Type_.fields ty).
Proof.
  unfold Type_.from_json.
  destruct (subscript jso "name") as [n|e]; simpl; [|discriminate].
  destruct (subscript jso "kind") as [k|e]; simpl; [|discriminate].
  match goal with |- (if ?b then _ else _) = _ -> _ => destruct b end.
  - match goal with
    | |- context [bind ?r ?g] => destruct (bind r g) as [items|e]
    end; [|discriminate].
    destruct (Type_.from_json_fields fuel items) as [[flds|e]|] eqn:E;
      try discriminate.
    intros H; injection H as <-. simpl.
    now apply (from_json_fields_never_dummy fuel items).
  - intros H; injection H as <-. constructor.
Qed.

Lemma from_json_never_dummy_witness :
  let jso :=
    VDict [("kind", VStr "OBJECT"); ("name", VStr "Query");
           ("fields",
            VList [VDict [("name", VStr "dummy"); ("args", VList []);
                          ("type", TypeRef.node (VStr "SCALAR") (VStr "String") VNone)];
                   VDict [("name", VStr "me"); ("args", VList []);
                          ("type", TypeRef.node (VStr "OBJECT") (VStr "User") VNone)]])] in
  exists ty,
    Type_.from_json 1 jso = Some (Ok ty)
    /\ Forall (fun f => py_eq (Field.name f) (VStr "dummy") = false)
              (Type_.fields ty).
Proof.
  intros jso. eexists. split; [reflexivity|].
  apply (@from_json_never_dummy 1 jso). reflexivity.
Defined.

Lemma fields_round_trip (fs : list Field.t) :
  Forall plain_list_field fs ->
  Forall (fun f => py_eq (Field.name f) (VStr "dummy") = false) fs ->
  exists js,
    mapM Field.to_json fs = Ok js
    /\ forall fuel, Type_.from_json_fields (S fuel) js = Some (Ok fs).
Proof.
  induction 1 as [|f fs Hf _ IH]; intros Hd.
  - exists []. split; [reflexivity|]. intros fuel. reflexivity.
  - inversion Hd as [|? ? Hdf Hdfs]; subst.
    destruct (IH Hdfs) as [js [Hjs Hback]].
    destruct (plain_field_read_back Hf) as [j [Hj [Hn Hfb]]].
    exists (j :: js). split.
    + simpl. now rewrite Hj, Hjs.
    + intros fuel.
      change (Type_.from_json_fields (S fuel) (j :: js))
        with (match subscript j "name" with
              | Raise e => Some (Raise e)
              | Ok n =>
                  if py_eq n (VStr "dummy")
                  then Type_.from_json_fields (S fuel) js
                  else
                    match Field_from_json (S fuel) j with
                    | None => None
                    | Some (Raise e) => Some (Raise e)
                    | Some (Ok fld) =>
                        match Type_.from_json_fields (S fuel) js with
                        | None => None
                        | Some (Raise e) => Some (Raise e)
                        | Some (Ok flds) => Some (Ok (fld :: flds))
                        end
                    end
              end).
      now rewrite Hn, Hdf, Hfb, Hback.
Qed.

(** A Type of kind OBJECT, INTERFACE or INPUT_OBJECT whose fields have no
    arguments, list types with non-nullable items and names other than
    ["dummy"] is read back from its wire object as it was. *)
Theorem Type_round_trip (ty : Type_.t) :
  py_in (Type_.kind ty)
        [VStr "OBJECT"; VStr "INTERFACE"; VStr "INPUT_OBJECT"] = true ->
  Forall plain_list_field (Type_.fields ty) ->
  Forall (fun f => py_eq (Field.name f) (VStr "dummy") = false)
         (Type_.fields ty) ->
  exists w,
    fst (Type_.to_json ty) = Ok w
    /\ forall fuel, Type_.from_json (S fuel) w = Some (Ok ty).
Proof.
  intros Hk Hp Hd.
  destruct (Type_.fields ty) as [|f fs] eqn:Efs.
  { destruct (empty_type_round_trip ty Efs) as [w [Hw Hb]].
    exists w. split; [exact Hw|]. intros fuel. apply Hb. }
  rewrite <- Efs in Hp, Hd.
  destruct (fields_round_trip Hp Hd) as [js [Hjs Hback]].
  destruct ty as [n k fields]; simpl in *.
  unfold Type_.to_json, Type_.inject_dummy; simpl. rewrite Efs.
  rewrite <- Efs. simpl. rewrite Hjs. unfold py_in in *; simpl in *.
  destruct (py_eq k (VStr "OBJECT")) eqn:EO; simpl in *;
    [|destruct (py_eq k (VStr "INTERFACE")) eqn:EI; simpl in *;
      [|destruct (py_eq k (VStr "INPUT_OBJECT")) eqn:EIO; simpl in *;
        [|discriminate]]];
    (eexists; split; [reflexivity|]);
    intros fuel; unfold Type_.from_json, py_in; cbn;
    rewrite ?EO, ?EI, ?EIO; cbn; rewrite Hback; reflexivity.
Qed.

Lemma Type_round_trip_witness :
  let ty := Type_.init (VStr "Query") (VStr "OBJECT")
              (Some [Field.init (VStr "tags")
                       (Some (TypeRef.init (VStr "String") (VStr "SCALAR")
                                true false true false)) None]) in
  exists w, fst (Type_.to_json ty) = Ok w
            /\ forall fuel, Type_.from_json (S fuel) w = Some (Ok ty).
Proof.
  intros ty. apply (@Type_round_trip ty).
  - reflexivity.
  - constructor; [|constructor]. split; [reflexivity|].
    exists "String", "SCALAR", true. reflexivity.
  - constructor; [reflexivity | constructor].
Defined.

(** A Type of any other kind is written without its fields, whatever they
    are: the wire object has the six entries description, enumValues,
    interfaces, kind, name and possibleTypes, of which only kind and name
    come from the Type, and no entry for fields.  It is read back with an
    empty field list. *)
Theorem other_kinds_lose_fields (ty : Type_.t) :
  py_in (Type_.kind ty)
        [VStr "OBJECT"; VStr "INTERFACE"; VStr "INPUT_OBJECT"] = false ->
  Type_.to_json ty
    = (Ok (VDict [ ("description", VNone);
                   ("enumValues", VNone);
                   ("interfaces", VList []);
                   ("kind", Type_.kind ty);
                   ("name", Type_.name ty);
                   ("possibleTypes", VNone) ]),
       Type_.inject_dummy ty)
  /\ forall w,
       fst (Type_.to_json ty) = Ok w ->
       subscript w "fields" = Raise (KeyError "fields")
       /\ subscript w "inputFields" = Raise (KeyError "inputFields")
       /\ forall fuel,
            Type_.from_json fuel w
              = Some (Ok (Type_.init (Type_.name ty) (Type_.kind ty) None)).
Proof.
  intros Hk.
  assert (E : Type_.to_json ty
              = (Ok (VDict [ ("description", VNone);
                             ("enumValues", VNone);
                             ("interfaces", VList []);
                             ("kind", Type_.kind ty);
                             ("name", Type_.name ty);
                             ("possibleTypes", VNone) ]),
                 Type_.inject_dummy ty)).
  { unfold Type_.to_json. rewrite inject_dummy_kind.
    unfold py_in in *; simpl in *.
    destruct (py_eq (Type_.kind ty) (VStr "OBJECT")); simpl in *;
      [discriminate|].
    destruct (py_eq (Type_.kind ty) (VStr "INTERFACE")); simpl in *;
      [discriminate|].
    destruct (py_eq (Type_.kind ty) (VStr "INPUT_OBJECT")); simpl in *;
      [discriminate|].
    unfold Type_.output_head.
    destruct ty as [n k [|f fs]]; reflexivity. }
  split; [exact E|].
  intros w Hw. rewrite E in Hw. simpl in Hw. injection Hw as <-.
  split; [reflexivity|]. split; [reflexivity|].
  intros fuel. unfold Type_.from_json. cbn.
  unfold py_in in Hk. cbn in Hk. rewrite Hk. reflexivity.
Qed.

Lemma other_kinds_lose_fields_witness :
  let ty := Type_.init (VStr "Color") (VStr "ENUM")
              (Some [object_field "red" "Color"]) in
  Type_.to_json ty
    = (Ok (VDict [ ("description", VNone);
                   ("enumValues", VNone);
                   ("interfaces", VList []);
                   ("kind", VStr "ENUM");
                   ("name", VStr "Color");
                   ("possibleTypes", VNone) ]),
       ty).
Proof.
  intros ty. apply (@other_kinds_lose_fields ty). reflexivity.
Defined.

(** ** Schema: the dict of types *)

Lemma dict_get_set_other {A} (k k' : string) (v : A) (d : list (string * A)) :
  k' <> k -> dict_get k' (dict_set k v d) = dict_get k' d.
Proof.
  intros Hne. induction d as [|[k0 v0] d IH]; simpl.
  - destruct (String.eqb_spec k k'); [congruence | reflexivity].
  - destruct (String.eqb_spec k0 k); simpl.
    + subst k0. destruct (String.eqb_spec k k'); [congruence | reflexivity].
    + destruct (String.eqb_spec k0 k'); [reflexivity | exact IH].
Qed.

Lemma dict_mem_false_keys {A} (k : string) (d : list (string * A)) :
  dict_mem k d = false -> ~ In k (map fst d).
Proof.
  unfold dict_mem. induction d as [|[k0 v0] d IH]; simpl; intros H.
  - tauto.
  - destruct (String.eqb_spec k0 k); [discriminate|].
    intros [E|Hin]; [congruence | now apply IH].
Qed.

Lemma dict_set_new {A} (k : string) (v : A) (d : list (string * A)) :
  dict_mem k d = false -> dict_set k v d = (d ++ [(k, v)])%list.
Proof.
  unfold dict_mem. induction d as [|[k0 v0] d IH]; simpl; intros H.
  - reflexivity.
  - destruct (String.eqb k0 k); [discriminate|]. now rewrite IH.
Qed.

Lemma dict_set_keys {A} (k : string) (v : A) (d : list (string * A)) :
  dict_mem k d = true -> map fst (dict_set k v d) = map fst d.
Proof.
  unfold dict_mem. induction d as [|[k0 v0] d IH]; simpl; intros H.
  - discriminate.
  - destruct (String.eqb_spec k0 k); simpl.
    + now subst.
    + now rewrite IH.
Qed.

Lemma dict_set_Forall {A} (P : string * A -> Prop) (k : string) (v : A)
    (d : list (string * A)) :
  P (k, v) -> Forall P d -> Forall P (dict_set k v d).
Proof.
  intros Hv. induction 1 as [|[k0 v0] d H0 Hd IH]; simpl.
  - constructor; [exact Hv | constructor].
  - destruct (String.eqb k0 k); constructor; assumption.
Qed.

Lemma add_type_schema_dict (s : Schema.t) (name kind : string) :
  Schema._schema (Schema.add_type s name kind) = Schema._schema s.
Proof. unfold Schema.add_type. now destruct (negb _). Qed.

(** [add_type] leaves the entry of every other name, and the dict
    [_schema], as they were. *)
Theorem add_type_frame (s : Schema.t) (name kind other : string) :
  other <> name ->
  dict_get other (Schema.types (Schema.add_type s name kind))
    = dict_get other (Schema.types s)
  /\ Schema._schema (Schema.add_type s name kind) = Schema._schema s.
Proof.
  intros Hne. split; [|apply add_type_schema_dict].
  unfold Schema.add_type. destruct (negb _); simpl; [|reflexivity].
  now apply dict_get_set_other.
Qed.

Lemma add_type_frame_witness :
  dict_get "String"
    (Schema.types (Schema.add_type (Schema.init None None None) "User" "OBJECT"))
  = dict_get "String" (Schema.types (Schema.init None None None)).
Proof.
  apply (@add_type_frame (Schema.init None None None) "User" "OBJECT" "String").
  discriminate.
Defined.

Lemma add_type_keeps (s : Schema.t) (name kind other : string) (ty : Type_.t) :
  dict_get other (Schema.types s) = Some ty ->
  dict_get other (Schema.types (Schema.add_type s name kind)) = Some ty.
Proof.
  intros H. destruct (String.eqb_spec other name) as [->|Hne].
  - unfold Schema.add_type, dict_mem. now rewrite H.
  - unfold Schema.add_type. destruct (negb _); simpl; [|exact H].
    now rewrite dict_get_set_other.
Qed.

Lemma add_type_keeps_well_keyed (s : Schema.t) (name kind : string) :
  well_keyed (Schema.types s) ->
  well_keyed (Schema.types (Schema.add_type s name kind)).
Proof.
  intros [Hnd Hn]. unfold Schema.add_type.
  destruct (dict_mem name (Schema.types s)) eqn:E; simpl; [now split|].
  rewrite (@dict_set_new _ _ _ _ E). split.
  - rewrite map_app. apply NoDup_app; simpl.
    + exact Hnd.
    + constructor; [tauto | constructor].
    + intros a Ha [<-|[]]. now apply (@dict_mem_false_keys _ _ _ E).
  - apply Forall_app. split; [exact Hn|]. constructor; [reflexivity|constructor].
Qed.

(** [add_type] keeps the dict of types well keyed. *)
Theorem add_type_well_keyed (s : Schema.t) (name kind : string) :
  well_keyed (Schema.types s) ->
  well_keyed (Schema.types (Schema.add_type s name kind)).
Proof. exact (@add_type_keeps_well_keyed s name kind). Qed.

Lemma add_type_well_keyed_witness :
  well_keyed
    (Schema.types (Schema.add_type (Schema.init None None None) "User" "OBJECT")).
Proof.
  apply (@add_type_well_keyed (Schema.init None None None) "User" "OBJECT").
  split.
  - simpl. repeat constructor; simpl; intuition discriminate.
  - repeat constructor.
Defined.

Lemma add_root_given (s : Schema.t) (x : option string) :
  Schema.add_root s (Schema.root_binding x) x = add_roots (given x) s.
Proof.
  unfold Schema.add_root, Schema.root_binding, given, add_roots.
  destruct x as [n|]; simpl; [|reflexivity].
  destruct (String.eqb n ""); reflexivity.
Qed.

Lemma add_roots_app (l1 l2 : list string) (s : Schema.t) :
  add_roots (l1 ++ l2) s = add_roots l2 (add_roots l1 s).
Proof. apply fold_left_app. Qed.

Lemma add_roots_schema_dict (names : list string) :
  forall s, Schema._schema (add_roots names s) = Schema._schema s.
Proof.
  induction names as [|n names IH]; simpl; intros s; [reflexivity|].
  unfold add_roots in IH. now rewrite IH, add_type_schema_dict.
Qed.

Lemma add_roots_well_keyed (names : list string) :
  forall s, well_keyed (Schema.types s) ->
            well_keyed (Schema.types (add_roots names s)).
Proof.
  induction names as [|n names IH]; simpl; intros s H; [exact H|].
  apply IH. now apply add_type_keeps_well_keyed.
Qed.

Lemma add_roots_keeps (names : list string) (other : string) (ty : Type_.t) :
  forall s, dict_get other (Schema.types s) = Some ty ->
            dict_get other (Schema.types (add_roots names s)) = Some ty.
Proof.
  induction names as [|n names IH]; simpl; intros s H; [exact H|].
  apply IH. now apply add_type_keeps.
Qed.

Lemma add_roots_mem (names : list string) (n : string) :
  forall s, In n names -> dict_mem n (Schema.types (add_roots names s)) = true.
Proof.
  induction names as [|m names IH]; simpl; intros s H; [contradiction|].
  destruct H as [->|H]; [|now apply IH].
  pose proof (add_type_mem s n "OBJECT") as M. unfold dict_mem in M.
  destruct (dict_get n (Schema.types (Schema.add_type s n "OBJECT")))
    as [ty|] eqn:E; [|discriminate].
  unfold dict_mem.
  now rewrite (@add_roots_keeps names n _ (Schema.add_type s n "OBJECT") E).
Qed.

Lemma init_add_roots (q m sub : option string) :
  Schema.init q m sub
  = add_roots (given q ++ given m ++ given sub) (seeded q m sub).
Proof.
  unfold Schema.init. rewrite !add_root_given, !add_roots_app. reflexivity.
Qed.

Lemma root_name_binding (x : option string) :
  Schema.root_name (Schema.root_binding x)
  = Ok (match given x with n :: _ => VStr n | [] => VStr "" end).
Proof.
  unfold Schema.root_name, Schema.root_binding, given.
  destruct x as [n|]; simpl; [|reflexivity].
  destruct (String.eqb n ""); reflexivity.
Qed.

Lemma init_roots (q m sub : option string) :
  Schema.roots (Schema.init q m sub)
  = Ok (map VStr (given q ++ given m ++ given sub)).
Proof.
  unfold Schema.roots. rewrite init_add_roots, add_roots_schema_dict. simpl.
  rewrite !root_name_binding. simpl.
  unfold given.
  destruct q as [q|], m as [m|], sub as [sub|]; simpl;
    repeat match goal with
      | |- context [String.eqb ?n ""] => destruct (String.eqb n "") eqn:?; simpl
      end;
    first [congruence | reflexivity].
Qed.

Lemma py_in_map_VStr (n : string) (names : list string) :
  In n names -> py_in (VStr n) (map VStr names) = true.
Proof.
  unfold py_in. intros H. apply existsb_exists. exists (VStr n). split.
  - now apply in_map.
  - simpl. apply String.eqb_refl.
Qed.

(** A new Schema is well keyed, holds the scalars [String] and [ID] as
    first registered, has an empty [_schema["types"]], and its roots are
    the non-empty names it was given, in the order query, mutation,
    subscription. *)
Theorem init_well_formed (q m sub : option string) :
  let s := Schema.init q m sub in
  well_keyed (Schema.types s)
  /\ dict_get "String" (Schema.types s)
     = Some (Type_.init (VStr "String") (VStr "SCALAR") None)
  /\ dict_get "ID" (Schema.types s)
     = Some (Type_.init (VStr "ID") (VStr "SCALAR") None)
  /\ SchemaDict.types (Schema._schema s) = []
  /\ Schema.roots s = Ok (map VStr (given q ++ given m ++ given sub)).
Proof.
  intros s. subst s. split; [|split; [|split; [|split]]].
  - rewrite init_add_roots. apply add_roots_well_keyed. split.
    + simpl. repeat constructor; simpl; intuition discriminate.
    + repeat constructor.
  - rewrite init_add_roots. now apply add_roots_keeps.
  - rewrite init_add_roots. now apply add_roots_keeps.
  - rewrite init_add_roots, add_roots_schema_dict. reflexivity.
  - apply init_roots.
Qed.

(** Every non-empty root name given to [Schema(...)] is a key of [types],
    and its path from the root is the name alone. *)
Theorem init_root_path (q m sub : option string) (n : string) :
  In n (given q ++ given m ++ given sub) ->
  dict_mem n (Schema.types (Schema.init q m sub)) = true
  /\ forall fuel,
       Schema.get_path_from_root (S fuel) (Schema.init q m sub) n
         = Some (Ok [VStr n]).
Proof.
  intros Hin.
  assert (Hm : dict_mem n (Schema.types (Schema.init q m sub)) = true).
  { rewrite init_add_roots. now apply add_roots_mem. }
  split; [exact Hm|]. intros fuel.
  unfold Schema.get_path_from_root. rewrite Hm, init_roots. simpl.
  now rewrite (@py_in_map_VStr _ _ Hin).
Qed.

Lemma init_root_path_witness :
  dict_mem "Mutation"
    (Schema.types (Schema.init (Some "Query") (Some "Mutation") None)) = true
  /\ forall fuel,
       Schema.get_path_from_root (S fuel)
         (Schema.init (Some "Query") (Some "Mutation") None) "Mutation"
       = Some (Ok [VStr "Mutation"]).
Proof.
  apply (@init_root_path (Some "Query") (Some "Mutation") None "Mutation").
  simpl. tauto.
Defined.

(** Appending a field to a registered Type: the Type gains the field at
    the end of its list, the keys of [types] and the dict [_schema] stay as
    they were, and so does every other entry. *)
Theorem append_field_registered
    (s : Schema.t) (name other : string) (f : Field.t) (ty : Type_.t) :
  dict_get name (Schema.types s) = Some ty ->
  other <> name ->
  exists s',
    Schema.append_field s name f = Ok s'
    /\ dict_get name (Schema.types s')
       = Some {| Type_.name := Type_.name ty;
                 Type_.kind := Type_.kind ty;
                 Type_.fields := (Type_.fields ty ++ [f])%list |}
    /\ dict_get other (Schema.types s') = dict_get other (Schema.types s)
    /\ map fst (Schema.types s') = map fst (Schema.types s)
    /\ Schema._schema s' = Schema._schema s.
Proof.
  intros H Hne. unfold Schema.append_field. rewrite H.
  eexists. split; [reflexivity|]. simpl.
  split; [apply dict_get_set_same|].
  split; [now apply dict_get_set_other|].
  split; [|reflexivity].
  apply dict_set_keys. unfold dict_mem. now rewrite H.
Qed.

Lemma append_field_registered_witness :
  exists s',
    Schema.append_field (Schema.init (Some "Query") None None) "Query"
                        (object_field "me" "User") = Ok s'
    /\ dict_get "String" (Schema.types s')
       = dict_get "String" (Schema.types (Schema.init (Some "Query") None None)).
Proof.
  destruct (@append_field_registered
              (Schema.init (Some "Query") None None) "Query" "String"
              (object_field "me" "User")
              (Type_.init (VStr "Query") (VStr "OBJECT") None))
    as [s' [H1 [_ [H3 _]]]].
  - reflexivity.
  - discriminate.
  - exists s'. split; assumption.
Defined.

(** Appending to a name that is no key of [types] raises [KeyError] and
    never registers the name. *)
Theorem append_field_unregistered (s : Schema.t) (name : string) (f : Field.t) :
  dict_mem name (Schema.types s) = false ->
  Schema.append_field s name f = Raise (KeyError name).
Proof.
  unfold dict_mem, Schema.append_field.
  destruct (dict_get name (Schema.types s)); [discriminate | reflexivity].
Qed.

Lemma append_field_unregistered_witness :
  Schema.append_field (Schema.init (Some "Query") None None) "User"
                      (object_field "id" "ID")
  = Raise (KeyError "User").
Proof.
  apply (@append_field_unregistered (Schema.init (Some "Query") None None)).
  reflexivity.
Defined.

(** ** Schema: get_path_from_root *)

Lemma while_not_root_stops_at_root (s : Schema.t) (rs : list value) (fuel : nat) :
  forall st st',
    Schema.while_not_root fuel s rs st = Some st' ->
    py_in (fst st') rs = true.
Proof.
  induction fuel as [|fuel IH]; simpl; intros st st' H; [discriminate|].
  destruct (py_in (fst st) rs) eqn:E; simpl in H.
  - injection H as <-. exact E.
  - now apply IH in H.
Qed.

Lemma path_head_is_root
    (fuel : nat) (s : Schema.t) (name : string) (path : list value) :
  Schema.get_path_from_root fuel s name = Some (Ok path) ->
  dict_mem name (Schema.types s) = true
  /\ exists r rest rs,
       path = r :: rest /\ Schema.roots s = Ok rs /\ py_in r rs = true.
Proof.
  unfold Schema.get_path_from_root.
  destruct (dict_mem name (Schema.types s)); simpl; [|discriminate].
  destruct (Schema.roots s) as [rs|e]; [|discriminate].
  destruct (Schema.while_not_root fuel s rs (VStr name, [])) as [[r rest]|] eqn:E;
    [|discriminate].
  intros H; injection H as <-. split; [reflexivity|].
  exists r, rest, rs. repeat split.
  apply while_not_root_stops_at_root in E. exact E.
Qed.

(** A path that [get_path_from_root] returns is not empty and starts with
    one of the roots of the Schema; the name asked for is a key of
    [types]. *)
Theorem path_starts_at_root
    (fuel : nat) (s : Schema.t) (name : string) (path : list value) :
  Schema.get_path_from_root fuel s name = Some (Ok path) ->
  dict_mem name (Schema.types s) = true
  /\ exists r rest rs,
       path = r :: rest /\ Schema.roots s = Ok rs /\ py_in r rs = true.
Proof. exact (@path_head_is_root fuel s name path). Qed.

Lemma path_starts_at_root_witness :
  dict_mem "Query" (Schema.types (Schema.init (Some "Query") None None)) = true
  /\ exists r rest rs,
       [VStr "Query"] = r :: rest
       /\ Schema.roots (Schema.init (Some "Query") None None) = Ok rs
       /\ py_in r rs = true.
Proof.
  apply (@path_starts_at_root 1 (Schema.init (Some "Query") None None) "Query").
  reflexivity.
Defined.

Lemma scan_list_none_produces (ts : list Type_.t) (name : value)
    (path : list value) :
  none_produces name ts = true ->
  scan_list ts (name, path) = (name, path).
Proof.
  unfold none_produces, scan_list.
  induction ts as [|ty ts IH]; simpl; intros H; [reflexivity|].
  apply andb_prop in H as [Hty Hts].
  rewrite scan_fields_no_producer by exact Hty. now apply IH.
Qed.

Lemma scan_fields_first_producer (ty : Type_.t) (name : value)
    (path : list value) (fs1 fs2 : list Field.t) (f : Field.t) :
  Type_.fields ty = (fs1 ++ f :: fs2)%list ->
  forallb (fun g => negb (produces name g)) fs1 = true ->
  produces name f = true ->
  forallb (fun g => negb (produces (Type_.name ty) g)) fs2 = true ->
  Schema.scan_fields ty (name, path) = (Type_.name ty, Field.name f :: path).
Proof.
  intros Hfs H1 Hf H2. unfold Schema.scan_fields. rewrite Hfs.
  rewrite fold_left_app. simpl.
  assert (S1 : forall l st,
             forallb (fun g => negb (produces (fst st) g)) l = true ->
             fold_left
               (fun (st : Schema.search) (g : Field.t) =>
                  let (name0, path_from_root) := st in
                  if py_eq (TypeRef.name (Field.type g)) name0
                  then (Type_.name ty, Field.name g :: path_from_root)
                  else (name0, path_from_root)) l st = st).
  { induction l as [|g l IH]; simpl; intros [n0 p0] H; [reflexivity|].
    simpl in H. apply andb_prop in H as [Hg Hl].
    apply negb_true_iff in Hg. unfold produces in Hg. rewrite Hg.
    now apply (IH (n0, p0)). }
  rewrite (S1 fs1 (name, path) H1).
  unfold produces in Hf. rewrite Hf.
  now rewrite (S1 fs2 (Type_.name ty, Field.name f :: path) H2).
Qed.

(** The path to a target that is no root, when the first field of type
    [name] met by the scan belongs to a root Type and nothing scanned after
    it has a field whose type is that root: the root, then the field. *)
Theorem direct_field_path
    (s : Schema.t) (name : string) (rs : list value)
    (ts1 ts2 : list (string * Type_.t)) (k : string) (ty : Type_.t)
    (fs1 fs2 : list Field.t) (f : Field.t) :
  dict_mem name (Schema.types s) = true ->
  Schema.roots s = Ok rs ->
  py_in (VStr name) rs = false ->
  py_in (Type_.name ty) rs = true ->
  Schema.types s = (ts1 ++ (k, ty) :: ts2)%list ->
  Type_.fields ty = (fs1 ++ f :: fs2)%list ->
  none_produces (VStr name) (dict_values ts1) = true ->
  forallb (fun g => negb (produces (VStr name) g)) fs1 = true ->
  produces (VStr name) f = true ->
  forallb (fun g => negb (produces (Type_.name ty) g)) fs2 = true ->
  none_produces (Type_.name ty) (dict_values ts2) = true ->
  forall fuel,
    Schema.get_path_from_root (2 + fuel) s name
      = Some (Ok [Type_.name ty; Field.name f]).
Proof.
  intros Hm Hrs Hnr Hr Hts Hfs H1 H2 Hf H3 H4 fuel.
  unfold Schema.get_path_from_root. rewrite Hm, Hrs. simpl.
  rewrite Hnr. simpl.
  assert (Hscan : Schema.scan_types s (VStr name, [])
                  = (Type_.name ty, [Field.name f])).
  { unfold Schema.scan_types. rewrite Hts. unfold dict_values.
    rewrite map_app, fold_left_app. simpl.
    change (fold_left (fun st ty0 => Schema.scan_fields ty0 st)
                      (map snd ts1) (VStr name, []))
      with (scan_list (dict_values ts1) (VStr name, [])).
    rewrite (@scan_list_none_produces _ _ [] H1).
    rewrite (@scan_fields_first_producer _ _ [] _ _ _ Hfs H2 Hf H3).
    apply (@scan_list_none_produces _ _ _ H4). }
  rewrite Hscan. simpl. rewrite Hr. reflexivity.
Qed.

Lemma direct_field_path_witness :
  exists s,
    Schema.append_field (Schema.add_type (Schema.init (Some "Query") None None)
                                         "User" "OBJECT")
                        "Query" (object_field "me" "User") = Ok s
    /\ forall fuel,
         Schema.get_path_from_root (2 + fuel) s "User"
           = Some (Ok [VStr "Query"; VStr "me"]).
Proof.
  eexists. split; [reflexivity|].
  apply (@direct_field_path _ "User" [VStr "Query"]
           [("String", Type_.init (VStr "String") (VStr "SCALAR") None);
            ("ID", Type_.init (VStr "ID") (VStr "SCALAR") None)]
           [("User", Type_.init (VStr "User") (VStr "OBJECT") None)]
           "Query"
           (Type_.init (VStr "Query") (VStr "OBJECT")
                       (Some [object_field "me" "User"]))
           [] [] (object_field "me" "User"));
    reflexivity.
Defined.

(** ** Schema: get_type_without_fields *)

(** With a list as [ignore] the call never raises: it returns the name of
    the first Type, in insertion order, that has no field, is not ignored
    and is not an INPUT_OBJECT, and the empty string when there is none. *)
Theorem get_type_without_fields_first (s : Schema.t) (ignore : list string) :
  Schema.get_type_without_fields s (Schema.PyList ignore)
  = Ok (match find (undiscovered ignore) (dict_values (Schema.types s)) with
        | Some ty => Type_.name ty
        | None => VStr ""
        end).
Proof.
  unfold Schema.get_type_without_fields.
  induction (dict_values (Schema.types s)) as [|ty ts IH]; simpl.
  - reflexivity.
  - unfold undiscovered at 1. destruct (Type_.fields ty); simpl.
    + destruct (negb _ && negb _); [reflexivity | exact IH].
    + exact IH.
Qed.

Lemma first_without_fields_skip (ts1 ts2 : list Type_.t) (ignore : list string) :
  forallb (fun ty => negb (undiscovered ignore ty)) ts1 = true ->
  Schema.first_without_fields (ts1 ++ ts2) (Schema.PyList ignore)
  = Schema.first_without_fields ts2 (Schema.PyList ignore).
Proof.
  induction ts1 as [|ty ts1 IH]; simpl; intros H; [reflexivity|].
  apply andb_prop in H as [Hty Hts]. apply negb_true_iff in Hty.
  unfold undiscovered in Hty. destruct (Type_.fields ty); simpl.
  - rewrite Hty. now apply IH.
  - now apply IH.
Qed.

(** When no registered Type is a candidate, registering a new name that
    is not ignored, with a kind other than INPUT_OBJECT, makes
    [get_type_without_fields] return that name. *)
Theorem fresh_type_is_returned
    (s : Schema.t) (ignore : list string) (name kind : string) :
  forallb (fun ty => negb (undiscovered ignore ty))
          (dict_values (Schema.types s)) = true ->
  dict_mem name (Schema.types s) = false ->
  ~ In name ignore ->
  kind <> "INPUT_OBJECT" ->
  Schema.get_type_without_fields (Schema.add_type s name kind)
                                 (Schema.PyList ignore)
  = Ok (VStr name).
Proof.
  intros Hnone Hfresh Hign Hkind.
  unfold Schema.get_type_without_fields, Schema.add_type.
  rewrite Hfresh; simpl. rewrite (@dict_set_new _ _ _ _ Hfresh).
  unfold dict_values. rewrite map_app.
  rewrite first_without_fields_skip by exact Hnone. simpl.
  assert (E1 : existsb (fun s0 => String.eqb name s0) ignore = false).
  { destruct (existsb _ ignore) eqn:E; [|reflexivity].
    apply existsb_exists in E as [x [Hin Hx]].
    apply String.eqb_eq in Hx. subst x. contradiction. }
  rewrite E1. simpl.
  apply String.eqb_neq in Hkind. now rewrite Hkind.
Qed.

Lemma fresh_type_is_returned_witness :
  Schema.get_type_without_fields
    (Schema.add_type (Schema.init None None None) "User" "OBJECT")
    (Schema.PyList ["String"; "ID"])
  = Ok (VStr "User").
Proof.
  apply (@fresh_type_is_returned (Schema.init None None None)
           ["String"; "ID"] "User" "OBJECT").
  - reflexivity.
  - reflexivity.
  - simpl. intuition discriminate.
  - discriminate.
Defined.

Lemma first_without_fields_settled (ts : list (string * Type_.t))
    (ignore : Schema.container) :
  Schema.first_without_fields (dict_values (settled ts)) ignore = Ok (VStr "").
Proof.
  induction ts as [|[k ty] ts IH]; simpl; [reflexivity|].
  destruct ty as [n kd [|f fs]]; exact IH.
Qed.

(** After a call of [to_json] that returned, every Type has a field, the
    placeholder if no other, so [get_type_without_fields] returns the
    empty string whatever [ignore] is. *)
Theorem no_type_without_fields_after_to_json
    (s : Schema.t) (ignore : Schema.container) :
  forallb (fun kt => Type_serializable (snd kt)) (Schema.types s) = true ->
  exists doc,
    fst (Schema.to_json s) = Ok doc
    /\ Schema.get_type_without_fields (snd (Schema.to_json s)) ignore
       = Ok (VStr "").
Proof.
  intros Hser. destruct (wires_exist _ Hser) as [ws Hws].
  unfold Schema.to_json. rewrite (@to_json_loop_returns _ _ Hws). simpl.
  eexists. split; [reflexivity|].
  apply first_without_fields_settled.
Qed.

Lemma no_type_without_fields_after_to_json_witness :
  let s := Schema.init (Some "Query") None None in
  Schema.get_type_without_fields s Schema.default_ignore = Ok (VStr "String")
  /\ exists doc,
       fst (Schema.to_json s) = Ok doc
       /\ Schema.get_type_without_fields (snd (Schema.to_json s))
                                         Schema.default_ignore
          = Ok (VStr "").
Proof.
  intros s. split; [reflexivity|].
  apply (@no_type_without_fields_after_to_json s Schema.default_ignore).
  reflexivity.
Defined.

(** ** Schema: convert_path_to_document *)

Lemma pop_loop_S (turns : nat) (path : list string) (doc : string) :
  Schema.pop_loop (S turns) path doc
  = if Nat.ltb 1 (length path)
    then Schema.pop_loop turns (removelast path)
                         (last path "" ++ " { " ++ doc ++ " }")
    else (path, doc).
Proof. reflexivity. Qed.

(** The loop pops every name but the first and nests them, the last name
    innermost. *)
Lemma pop_loop_nests (p0 : string) (fs : list string) :
  forall turns doc,
    length fs <= turns ->
    Schema.pop_loop turns (p0 :: fs) doc
    = ([p0], fold_right (fun f d => f ++ " { " ++ d ++ " }") doc fs).
Proof.
  induction fs as [|x fs IH] using rev_ind; intros turns doc Hlen.
  - destruct turns; reflexivity.
  - rewrite length_app in Hlen. simpl in Hlen.
    destruct turns as [|turns]; [lia|].
    rewrite pop_loop_S.
    assert (L : Nat.ltb 1 (length (p0 :: fs ++ [x])) = true).
    { apply Nat.ltb_lt. simpl. rewrite length_app. simpl. lia. }
    rewrite L. rewrite app_comm_cons, removelast_last, last_last.
    rewrite IH by lia. now rewrite fold_right_app.
Qed.

(** With the three roots bound, the document is chosen by the first of
    query, mutation and subscription whose name equals the head of the
    path; the field names are nested in order around the placeholder; the
    call leaves only the head in the list it was given.  A head that
    matches no root raises [Exception("Unknown operation type")]. *)
Theorem convert_path_with_three_roots
    (s : Schema.t) (p0 : string) (fs : list string) (q m sb : value) :
  subscript (SchemaDict.queryType (Schema._schema s)) "name" = Ok q ->
  subscript (SchemaDict.mutationType (Schema._schema s)) "name" = Ok m ->
  subscript (SchemaDict.subscriptionType (Schema._schema s)) "name" = Ok sb ->
  Schema.convert_path_to_document s (p0 :: fs)
  = (if py_eq (VStr p0) q then Ok ("query { " ++ selection fs ++ " }")
     else if py_eq (VStr p0) m then Ok ("mutation { " ++ selection fs ++ " }")
     else if py_eq (VStr p0) sb
          then Ok ("subscription { " ++ selection fs ++ " }")
          else Raise (Exception "Unknown operation type"),
     [p0]).
Proof.
  intros Hq Hm Hs. unfold Schema.convert_path_to_document.
  rewrite (@pop_loop_nests p0 fs (length (p0 :: fs)) "FUZZ") by (simpl; lia).
  fold (selection fs). unfold bind. rewrite Hq.
  destruct (py_eq (VStr p0) q); [reflexivity|]. rewrite Hm.
  destruct (py_eq (VStr p0) m); [reflexivity|]. rewrite Hs.
  destruct (py_eq (VStr p0) sb); reflexivity.
Qed.

Lemma convert_path_with_three_roots_witness :
  Schema.convert_path_to_document
    (Schema.init (Some "Query") (Some "Mutation") (Some "Subscription"))
    ["Mutation"; "createUser"; "id"]
  = (Ok "mutation { createUser { id { FUZZ } } }", ["Mutation"]).
Proof.
  apply (@convert_path_with_three_roots
           (Schema.init (Some "Query") (Some "Mutation") (Some "Subscription"))
           "Mutation" ["createUser"; "id"]
           (VStr "Query") (VStr "Mutation") (VStr "Subscription"));
    reflexivity.
Defined.

Lemma query_path_document
    (s : Schema.t) (p0 : string) (fs : list string) (q : value) :
  subscript (SchemaDict.queryType (Schema._schema s)) "name" = Ok q ->
  py_eq (VStr p0) q = true ->
  Schema.convert_path_to_document s (p0 :: fs)
  = (Ok ("query { " ++ selection fs ++ " }"), [p0]).
Proof.
  intros Hq He. unfold Schema.convert_path_to_document.
  rewrite (@pop_loop_nests p0 fs (length (p0 :: fs)) "FUZZ") by (simpl; lia).
  fold (selection fs). unfold bind. now rewrite Hq, He.
Qed.

(** A path whose head is the query root gives a query document whether or
    not the other roots are bound. *)
Theorem convert_query_path
    (s : Schema.t) (p0 : string) (fs : list string) (q : value) :
  subscript (SchemaDict.queryType (Schema._schema s)) "name" = Ok q ->
  py_eq (VStr p0) q = true ->
  Schema.convert_path_to_document s (p0 :: fs)
  = (Ok ("query { " ++ selection fs ++ " }"), [p0]).
Proof. exact (@query_path_document s p0 fs q). Qed.

Lemma convert_query_path_witness :
  Schema.convert_path_to_document (Schema.init (Some "Query") None None)
                                  ["Query"; "me"; "name"]
  = (Ok "query { me { name { FUZZ } } }", ["Query"]).
Proof.
  apply (@convert_query_path (Schema.init (Some "Query") None None)
           "Query" ["me"; "name"] (VStr "Query"));
    reflexivity.
Defined.

(** Without a query root no document can be built: the first comparison
    subscripts [None] and raises [TypeError] for every non-empty path, a
    path from the mutation root included. *)
Theorem convert_without_query_root
    (s : Schema.t) (p0 : string) (fs : list string) :
  SchemaDict.queryType (Schema._schema s) = VNone ->
  Schema.convert_path_to_document s (p0 :: fs)
  = (Raise (TypeError "'NoneType' object is not subscriptable"), [p0]).
Proof.
  intros Hq. unfold Schema.convert_path_to_document.
  rewrite (@pop_loop_nests p0 fs (length (p0 :: fs)) "FUZZ") by (simpl; lia).
  now rewrite Hq.
Qed.

Lemma convert_without_query_root_witness :
  Schema.convert_path_to_document (Schema.init None (Some "Mutation") None)
                                  ["Mutation"; "createUser"]
  = (Raise (TypeError "'NoneType' object is not subscriptable"), ["Mutation"]).
Proof.
  apply (@convert_without_query_root
           (Schema.init None (Some "Mutation") None) "Mutation" ["createUser"]).
  reflexivity.
Defined.

(** With a query root but no mutation root, a path whose head is not the
    query root raises [TypeError], not the exception for an unknown
    operation type. *)
Theorem convert_without_mutation_root
    (s : Schema.t) (p0 : string) (fs : list string) (q : value) :
  subscript (SchemaDict.queryType (Schema._schema s)) "name" = Ok q ->
  py_eq (VStr p0) q = false ->
  SchemaDict.mutationType (Schema._schema s) = VNone ->
  Schema.convert_path_to_document s (p0 :: fs)
  = (Raise (TypeError "'NoneType' object is not subscriptable"), [p0]).
Proof.
  intros Hq He Hm. unfold Schema.convert_path_to_document.
  rewrite (@pop_loop_nests p0 fs (length (p0 :: fs)) "FUZZ") by (simpl; lia).
  unfold bind. now rewrite Hq, He, Hm.
Qed.

Lemma convert_without_mutation_root_witness :
  Schema.convert_path_to_document (Schema.init (Some "Query") None None)
                                  ["User"; "name"]
  = (Raise (TypeError "'NoneType' object is not subscriptable"), ["User"]).
Proof.
  apply (@convert_without_mutation_root
           (Schema.init (Some "Query") None None) "User" ["name"] (VStr "Query"));
    reflexivity.
Defined.

Lemma map_VStr_cons (path : list string) (r : value) (rest : list value) :
  map VStr path = r :: rest ->
  exists p0 fs, path = p0 :: fs /\ r = VStr p0.
Proof.
  destruct path as [|p0 fs]; simpl; intros H; [discriminate|].
  injection H as <- _. now exists p0, fs.
Qed.

(** In a Schema whose only root is the query root, every path of names
    that [get_path_from_root] returns starts with that root and is turned
    into a query document by [convert_path_to_document]. *)
Theorem found_path_gives_query_document
    (s : Schema.t) (q name : string) (fuel : nat) (path : list string) :
  q <> "" ->
  SchemaDict.queryType (Schema._schema s) = VDict [("name", VStr q)] ->
  SchemaDict.mutationType (Schema._schema s) = VNone ->
  SchemaDict.subscriptionType (Schema._schema s) = VNone ->
  Schema.get_path_from_root fuel s name = Some (Ok (map VStr path)) ->
  exists fs,
    path = q :: fs
    /\ Schema.convert_path_to_document s path
       = (Ok ("query { " ++ selection fs ++ " }"), [q]).
Proof.
  intros Hq HQ HM HS H.
  apply path_head_is_root in H as [_ [r [rest [rs [Hp [Hrs Hr]]]]]].
  apply map_VStr_cons in Hp as [p0 [fs [-> ->]]].
  unfold Schema.roots in Hrs. rewrite HQ, HM, HS in Hrs. simpl in Hrs.
  apply String.eqb_neq in Hq. rewrite Hq in Hrs. simpl in Hrs.
  injection Hrs as <-.
  unfold py_in in Hr. simpl in Hr. rewrite orb_false_r in Hr.
  apply String.eqb_eq in Hr. subst p0.
  exists fs. split; [reflexivity|].
  apply (@query_path_document _ q fs (VStr q)).
  - now rewrite HQ.
  - simpl. apply String.eqb_refl.
Qed.

Lemma found_path_gives_query_document_witness :
  exists s,
    Schema.append_field (Schema.add_type (Schema.init (Some "Query") None None)
                                         "User" "OBJECT")
                        "Query" (object_field "me" "User") = Ok s
    /\ exists fs,
         ["Query"; "me"] = "Query" :: fs
         /\ Schema.convert_path_to_document s ["Query"; "me"]
            = (Ok ("query { " ++ selection fs ++ " }"), ["Query"]).
Proof.
  eexists. split; [reflexivity|].
  eapply (@found_path_gives_query_document _ "Query" "User" 2 ["Query"; "me"]).
  - discriminate.
  - reflexivity.
  - reflexivity.
  - reflexivity.
  - reflexivity.
Defined.

(** ** Schema: to_json, further *)

Lemma to_json_loop_raises (ts1 ts2 : list (string * Type_.t)) (ws1 : list value)
    (k : string) (ty : Type_.t) (e : exn) :
  Forall2 wire_of ts1 ws1 ->
  fst (Type_.to_json ty) = Raise e ->
  Schema.to_json_loop (ts1 ++ (k, ty) :: ts2)
  = (ws1, Raise e, (settled ts1 ++ (k, Type_.inject_dummy ty) :: ts2)%list).
Proof.
  intros Hws He. induction Hws as [|[k1 t1] w ts ws Hw _ IH]; simpl.
  - pose proof (to_json_receiver ty) as Hs.
    destruct (Type_.to_json ty) as [r ty']; simpl in *; subst. reflexivity.
  - unfold wire_of in Hw; simpl in Hw.
    pose proof (to_json_receiver t1) as Hs.
    destruct (Type_.to_json t1) as [r t1']; simpl in *; subst.
    now rewrite IH.
Qed.

(** When the serialization of one Type raises, [to_json] raises the same
    exception, yet the wire objects of the Types before it stay appended to
    [_schema["types"]] and those Types keep their placeholder. *)
Theorem to_json_failure_leaves_partial_output
    (s : Schema.t) (ts1 ts2 : list (string * Type_.t)) (ws1 : list value)
    (k : string) (ty : Type_.t) (e : exn) :
  Schema.types s = (ts1 ++ (k, ty) :: ts2)%list ->
  Forall2 wire_of ts1 ws1 ->
  fst (Type_.to_json ty) = Raise e ->
  fst (Schema.to_json s) = Raise e
  /\ SchemaDict.types (Schema._schema (snd (Schema.to_json s)))
     = (SchemaDict.types (Schema._schema s) ++ ws1)%list
  /\ Schema.types (snd (Schema.to_json s))
     = (settled ts1 ++ (k, Type_.inject_dummy ty) :: ts2)%list.
Proof.
  intros Hts Hws He. unfold Schema.to_json.
  rewrite Hts, (@to_json_loop_raises ts1 ts2 ws1 k ty e Hws He). simpl.
  repeat split.
Qed.

Lemma to_json_failure_leaves_partial_output_witness :
  exists s,
    Schema.append_field (Schema.init (Some "Query") None None) "Query"
      (Field.init (VStr "filter")
         (Some (TypeRef.init (VStr "Filter") (VStr "INPUT_OBJECT")
                  false false true true)) None) = Ok s
    /\ fst (Schema.to_json s) = Raise (AttributeError "ofType")
    /\ length (SchemaDict.types (Schema._schema (snd (Schema.to_json s)))) = 2.
Proof.
  eexists. split; [reflexivity|].
  match goal with
  | |- fst (Schema.to_json ?s) = _ /\ _ =>
      destruct (@to_json_failure_leaves_partial_output s
                  [("String", Type_.init (VStr "String") (VStr "SCALAR") None);
                   ("ID", Type_.init (VStr "ID") (VStr "SCALAR") None)]
                  []
                  [VDict (Type_.output_head
                            (Type_.init (VStr "String") (VStr "SCALAR") None));
                   VDict (Type_.output_head
                            (Type_.init (VStr "ID") (VStr "SCALAR") None))]
                  "Query"
                  (Type_.init (VStr "Query") (VStr "OBJECT")
                     (Some [Field.init (VStr "filter")
                              (Some (TypeRef.init (VStr "Filter")
                                       (VStr "INPUT_OBJECT")
                                       false false true true)) None]))
                  (AttributeError "ofType"))
        as [H1 [H2 _]]
  end.
  - reflexivity.
  - repeat constructor.
  - reflexivity.
  - split; [exact H1|]. rewrite H2. reflexivity.
Defined.

Lemma settled_frame (ts : list (string * Type_.t)) :
  Forall2
    (fun kt kt' =>
       fst kt' = fst kt
       /\ Type_.name (snd kt') = Type_.name (snd kt)
       /\ Type_.kind (snd kt') = Type_.kind (snd kt)
       /\ Type_.fields (snd kt')
          = match Type_.fields (snd kt) with
            | [] => [Type_.dummy]
            | f :: fs => f :: fs
            end)
    ts (settled ts).
Proof.
  induction ts as [|[k ty] ts IH]; simpl; constructor; [|exact IH].
  destruct ty as [n kd [|f fs]]; simpl; repeat split.
Qed.

(** A call of [to_json] that returns changes nothing but what it appends:
    the root bindings and directives, the keys of [types] and the name and
    kind of every Type are as before; a Type that had a field keeps its
    field list, a Type that had none holds the placeholder alone. *)
Theorem to_json_frame (s : Schema.t) :
  forallb (fun kt => Type_serializable (snd kt)) (Schema.types s) = true ->
  let s' := snd (Schema.to_json s) in
  SchemaDict.directives (Schema._schema s')
    = SchemaDict.directives (Schema._schema s)
  /\ SchemaDict.queryType (Schema._schema s')
     = SchemaDict.queryType (Schema._schema s)
  /\ SchemaDict.mutationType (Schema._schema s')
     = SchemaDict.mutationType (Schema._schema s)
  /\ SchemaDict.subscriptionType (Schema._schema s')
     = SchemaDict.subscriptionType (Schema._schema s)
  /\ Forall2
       (fun kt kt' =>
          fst kt' = fst kt
          /\ Type_.name (snd kt') = Type_.name (snd kt)
          /\ Type_.kind (snd kt') = Type_.kind (snd kt)
          /\ Type_.fields (snd kt')
             = match Type_.fields (snd kt) with
               | [] => [Type_.dummy]
               | f :: fs => f :: fs
               end)
       (Schema.types s) (Schema.types s').
Proof.
  intros Hser s'. subst s'.
  destruct (wires_exist _ Hser) as [ws Hws].
  unfold Schema.to_json. rewrite (@to_json_loop_returns _ _ Hws). simpl.
  repeat split. apply settled_frame.
Qed.

Lemma to_json_frame_witness :
  let s := Schema.init (Some "Query") None None in
  SchemaDict.queryType (Schema._schema (snd (Schema.to_json s)))
  = SchemaDict.queryType (Schema._schema s).
Proof.
  intros s. apply (@to_json_frame s). reflexivity.
Defined.

Lemma concat_repeat_comm {A} (ws : list A) (n : nat) :
  (concat (repeat ws n) ++ ws = ws ++ concat (repeat ws n))%list.
Proof.
  induction n as [|n IH]; simpl.
  - now rewrite app_nil_r.
  - now rewrite <- app_assoc, IH.
Qed.

(** Each call of [to_json] that returns appends one more copy of the wire
    objects: after [n] calls [_schema["types"]] holds what it held before
    followed by [n] copies, and the next call returns a document with
    [n + 1] copies. *)
Theorem to_json_appends_each_call (s : Schema.t) :
  forallb (fun kt => Type_serializable (snd kt)) (Schema.types s) = true ->
  exists ws,
    Forall2 wire_of (Schema.types s) ws
    /\ forall n,
         SchemaDict.types (Schema._schema (after_Schema_to_json n s))
           = (SchemaDict.types (Schema._schema s) ++ concat (repeat ws n))%list
         /\ exists doc,
              fst (Schema.to_json (after_Schema_to_json n s)) = Ok doc
              /\ (d <- subscript doc "data" ;;
                  sc <- subscript d "__schema" ;;
                  subscript sc "types")
                 = Ok (VList (SchemaDict.types (Schema._schema s)
                              ++ concat (repeat ws (S n)))).
Proof.
  intros Hser. destruct (wires_exist _ Hser) as [ws Hws].
  exists ws. split; [exact Hws|].
  pose proof (to_json_loop_returns Hws) as L1.
  pose proof (to_json_loop_returns (wires_of_settled Hws)) as L2.
  rewrite settled_idempotent in L2.
  destruct s as [d ts]; simpl in *.
  set (mk := fun l =>
         {| Schema._schema :=
              {| SchemaDict.directives := SchemaDict.directives d;
                 SchemaDict.mutationType := SchemaDict.mutationType d;
                 SchemaDict.queryType := SchemaDict.queryType d;
                 SchemaDict.subscriptionType := SchemaDict.subscriptionType d;
                 SchemaDict.types := l |};
            Schema.types := settled ts |}).
  assert (St : forall n,
             after_Schema_to_json (S n) {| Schema._schema := d; Schema.types := ts |}
             = mk (SchemaDict.types d ++ concat (repeat ws (S n)))%list).
  { induction n as [|n IH].
    - unfold after_Schema_to_json, Schema.to_json; simpl. rewrite L1. simpl.
      now rewrite app_nil_r.
    - change (after_Schema_to_json (S (S n)) {| Schema._schema := d; Schema.types := ts |})
        with (snd (Schema.to_json
                     (after_Schema_to_json (S n)
                        {| Schema._schema := d; Schema.types := ts |}))).
      rewrite IH. unfold Schema.to_json, mk; simpl. rewrite L2. simpl.
      unfold mk. do 2 f_equal.
      rewrite <- !app_assoc. f_equal.
      change (ws ++ concat (repeat ws n))%list with (concat (repeat ws (S n))).
      rewrite concat_repeat_comm. reflexivity. }
  intros n. destruct n as [|n].
  - split; [simpl; now rewrite app_nil_r|].
    unfold after_Schema_to_json, Schema.to_json; simpl. rewrite L1. simpl.
    eexists. split; [reflexivity|]. simpl. now rewrite app_nil_r.
  - rewrite St. split; [reflexivity|].
    unfold Schema.to_json, mk; simpl. rewrite L2. simpl.
    eexists. split; [reflexivity|]. simpl. do 2 f_equal.
    rewrite <- !app_assoc. f_equal.
    change (ws ++ concat (repeat ws n))%list with (concat (repeat ws (S n))).
    now rewrite concat_repeat_comm.
Qed.

Lemma to_json_appends_each_call_witness :
  let s := Schema.init (Some "Query") None None in
  exists ws,
    length ws = 3
    /\ SchemaDict.types (Schema._schema (after_Schema_to_json 4 s))
       = concat (repeat ws 4).
Proof.
  intros s. destruct (@to_json_appends_each_call s) as [ws [H1 H2]].
  - reflexivity.
  - exists ws. split.
    + symmetry. exact (Forall2_length H1).
    + exact (proj1 (H2 4)).
Defined.
